(** * aimatching: the matching engine, embedded and verified

    A shallow embedding of the résumé/job matching engine
    (services/matching/skill_mapper.py, match_service.py, job_analyzer.py and
    the score normalisation of services/ai/claude_service.py), followed by the
    theorems that settle the engine's specified properties.

    Conventions of the embedding.
    - A Python [str] is the list of its Unicode code points ([pystr]).
    - A Python [float] score is an exact rational ([Q]); every score of the
      engine is a quotient of small integers, and comparisons are made on the
      exact value.
    - An insertion-ordered [dict] whose iteration order the code depends on is
      an association list with unique keys; a [dict] used only through lookups
      is a [gmap].
    - A statement that may raise is a value of [exn + A]; [try/except] is a
      [match] on it. *)

From Stdlib Require Import ZArith NArith QArith Qround Qminmax List Lia Lqa String Ascii.
From stdpp Require Import base gmap list strings sets.
Import ListNotations.

(** ** Python strings *)

Module PyStr.

Abbreviation pystr := (list N).

(** Decoding of the UTF-8 bytes of a literal into code points. *)
Fixpoint utf8_decode (bs : list N) : pystr :=
  match bs with
  | [] => []
  | b :: t =>
      if (b <? 128)%N then b :: utf8_decode t
      else if (b <? 224)%N then
        match t with
        | c :: t' => ((b - 192) * 64 + (c - 128))%N :: utf8_decode t'
        | [] => []
        end
      else if (b <? 240)%N then
        match t with
        | c :: d :: t' =>
            ((b - 224) * 4096 + (c - 128) * 64 + (d - 128))%N :: utf8_decode t'
        | _ => []
        end
      else
        match t with
        | c :: d :: e :: t' =>
            ((b - 240) * 262144 + (c - 128) * 4096 + (d - 128) * 64 + (e - 128))%N
              :: utf8_decode t'
        | _ => []
        end
  end.

Fixpoint bytes_of_string (s : string) : list N :=
  match s with
  | EmptyString => []
  | String a s' => N_of_ascii a :: bytes_of_string s'
  end.

(** [py "text"] is the Python string literal ['text']. *)
Definition py (s : string) : pystr := utf8_decode (bytes_of_string s).

(** [str.isspace] on one character: the code points Python treats as
    whitespace ([strip] and [split] without argument use the same set). *)
Definition isspace (c : N) : bool :=
  ((9 <=? c) && (c <=? 13) || (28 <=? c) && (c <=? 32) || (c =? 133) || (c =? 160)
   || (c =? 5760) || (8192 <=? c) && (c <=? 8202) || (c =? 8232) || (c =? 8233)
   || (c =? 8239) || (c =? 8287) || (c =? 12288))%N.

(** [str.lower] on one character. Exact on ASCII and Latin-1 (the alphabet of
    the engine's Portuguese and English tables) and on the two code points
    that upper-casing a Latin-1 letter can produce; other code points are left
    as they are. *)
Definition lower_char (c : N) : N :=
  if ((65 <=? c) && (c <=? 90))%N then (c + 32)%N
  else if ((192 <=? c) && (c <=? 222) && negb (c =? 215))%N then (c + 32)%N
  else if (c =? 376)%N then 255%N
  else if (c =? 924)%N then 956%N
  else c.

Definition lower (s : pystr) : pystr := map lower_char s.

(** [str.upper] on one character; the result is a string because the
    upper-case form of 'ß' is 'SS'. Exact on ASCII and Latin-1. *)
Definition upper_char (c : N) : pystr :=
  if ((97 <=? c) && (c <=? 122))%N then [(c - 32)%N]
  else if ((224 <=? c) && (c <=? 254) && negb (c =? 247))%N then [(c - 32)%N]
  else if (c =? 223)%N then [83%N; 83%N]
  else if (c =? 255)%N then [376%N]
  else if (c =? 181)%N then [924%N]
  else [c].

Fixpoint lstrip (s : pystr) : pystr :=
  match s with
  | c :: t => if isspace c then lstrip t else s
  | [] => []
  end.

Definition rstrip (s : pystr) : pystr := rev (lstrip (rev s)).

(** [s.strip()] *)
Definition strip (s : pystr) : pystr := rstrip (lstrip s).

Fixpoint startswith (p s : pystr) : bool :=
  match p, s with
  | [], _ => true
  | _ :: _, [] => false
  | a :: p', b :: s' => (a =? b)%N && startswith p' s'
  end.

(** [str_in x y] is Python's [x in y] on strings: [x] occurs in [y] as a
    contiguous substring (the empty string occurs in every string). *)
Fixpoint str_in (x y : pystr) : bool :=
  startswith x y || match y with [] => false | _ :: t => str_in x t end.

(** [s.split()]: the maximal runs of non-whitespace characters. *)
Fixpoint split_from (cur : pystr) (s : pystr) : list pystr :=
  match s with
  | [] => match cur with [] => [] | _ => [rev cur] end
  | c :: t =>
      if isspace c then
        match cur with [] => split_from [] t | _ => rev cur :: split_from [] t end
      else split_from (c :: cur) t
  end.

Definition split (s : pystr) : list pystr := split_from [] s.

(** [s.replace(c, r)] for a one-character pattern [c]. *)
Definition replace_char (c : N) (r : pystr) (s : pystr) : pystr :=
  flat_map (fun x => if (x =? c)%N then r else [x]) s.

(** Decidable equality of strings as a boolean ([==]). *)
Definition str_eqb (x y : pystr) : bool := bool_decide (x = y).

(** [x in l] for a list (or set) of strings. *)
Definition str_mem (x : pystr) (l : list pystr) : bool := bool_decide (x ∈ l).

End PyStr.

Import PyStr.

(** ** difflib.SequenceMatcher

    The ratio of the standard library's [SequenceMatcher(None, a, b)]: no
    junk predicate, automatic junk heuristic on (elements of [b] that occur
    more than [len(b) // 100 + 1] times are "popular" when [len(b) >= 200]
    and cannot start a match, though a match is extended over them). *)

Module Difflib.

Definition popular (b : pystr) (c : N) : bool :=
  let n := length b in
  (200 <=? n)%nat && (n / 100 + 1 <? length (filter (N.eqb c) b))%nat.

(** One row of [find_longest_match]'s table: [j2len] for the element [ai],
    from the previous row shifted by one position. *)
Fixpoint new_row (pop : N → bool) (ai : N) (bs : pystr) (shifted : list nat) : list nat :=
  match bs, shifted with
  | bj :: bs', p :: sh' =>
      (if (ai =? bj)%N && negb (pop bj) then S p else 0%nat) :: new_row pop ai bs' sh'
  | _, _ => []
  end.

Fixpoint scan_row (i j : nat) (row : list nat) (best : nat * nat * nat) : nat * nat * nat :=
  match row with
  | [] => best
  | k :: row' =>
      let '(_, _, bestsize) := best in
      scan_row i (S j) row'
        (if (bestsize <? k)%nat then ((i + 1 - k)%nat, (j + 1 - k)%nat, k) else best)
  end.

Fixpoint table (pop : N → bool) (a b : pystr) (i : nat) (prev : list nat)
    (best : nat * nat * nat) : nat * nat * nat :=
  match a with
  | [] => best
  | ai :: a' =>
      let row := new_row pop ai b (0%nat :: prev) in
      table pop a' b (S i) row (scan_row i 0 row best)
  end.

Fixpoint extend_left (a b : pystr) (besti bestj bestsize : nat) : nat * nat * nat :=
  match besti, bestj with
  | S i', S j' =>
      if bool_decide (a !! i' = b !! j')
      then extend_left a b i' j' (S bestsize)
      else (besti, bestj, bestsize)
  | _, _ => (besti, bestj, bestsize)
  end.

Fixpoint extend_right (fuel : nat) (a b : pystr) (besti bestj bestsize : nat) : nat :=
  match fuel with
  | O => bestsize
  | S fuel' =>
      if ((besti + bestsize <? length a) && (bestj + bestsize <? length b))%nat
         && bool_decide (a !! (besti + bestsize)%nat = b !! (bestj + bestsize)%nat)
      then extend_right fuel' a b besti bestj (S bestsize)
      else bestsize
  end.

(** [find_longest_match] on the slices [a] and [b]: the longest common block,
    the one starting earliest in [a] and then earliest in [b]. *)
Definition find_longest_match (pop : N → bool) (a b : pystr) : nat * nat * nat :=
  let '(i, j, k) := table pop a b 0 (repeat 0%nat (length b)) (0, 0, 0)%nat in
  let '(i, j, k) := extend_left a b i j k in
  (i, j, extend_right (length a) a b i j k).

(** Total size of [get_matching_blocks]: the longest block, then the same to
    its left and to its right. *)
Fixpoint matching (fuel : nat) (pop : N → bool) (a b : pystr) : nat :=
  match fuel with
  | O => 0
  | S fuel' =>
      let '(i, j, k) := find_longest_match pop a b in
      if (k =? 0)%nat then 0%nat
      else
        (k
         + (if ((0 <? i) && (0 <? j))%nat
            then matching fuel' pop (take i a) (take j b) else 0)
         + (if ((i + k <? length a) && (j + k <? length b))%nat
            then matching fuel' pop (drop (i + k) a) (drop (j + k) b) else 0))%nat
  end.

Definition matches (a b : pystr) : nat := matching (length a) (popular b) a b.

(** [SequenceMatcher(None, a, b).ratio()] *)
Definition ratio (a b : pystr) : Q :=
  let T := (length a + length b)%nat in
  if (T =? 0)%nat then 1
  else (2 * Z.of_nat (matches a b)) # Pos.of_nat T.

End Difflib.

(** ** Insertion-ordered dictionaries

    Python's [dict] where the code iterates over it: an association list in
    insertion order. Assigning to a key that is present replaces its value in
    place; a new key goes to the end. *)

Module ODict.
Section ODict.
  Context {V : Type}.

Fixpoint get (k : pystr) (d : list (pystr * V)) : option V :=
    match d with
    | [] => None
    | (k', v) :: d' => if decide (k = k') then Some v else get k d'
    end.

  (** [d[k] = v] *)
Fixpoint set (k : pystr) (v : V) (d : list (pystr * V)) : list (pystr * V) :=
    match d with
    | [] => [(k, v)]
    | (k', v') :: d' => if decide (k = k') then (k, v) :: d' else (k', v') :: set k v d'
    end.

  (** [d.update(l)] *)
Definition update (d : list (pystr * V)) (l : list (pystr * V)) : list (pystr * V) :=
    fold_left (fun d kv => set kv.1 kv.2 d) l d.

  (** [k in d] *)
Definition mem (k : pystr) (d : list (pystr * V)) : bool :=
    match get k d with Some _ => true | None => false end.
End ODict.
End ODict.

(** Comparison of scores. *)
Definition Qltb (x y : Q) : bool := negb (Qle_bool y x).

(** [min(a, b)] and [max(a, b)] as Python evaluates them: the first argument
    unless the second is strictly smaller (larger). *)
Definition pymin (a b : Q) : Q := if Qltb b a then b else a.
Definition pymax (a b : Q) : Q := if Qltb a b then b else a.

(** ** services/matching/skill_mapper.py *)

Module SkillMapper.

(** The state of a [SkillMapper]: the alias table, the category sets and the
    synonym lists. *)
Record t := {
  skill_map : list (pystr * pystr);
  categories : list (pystr * list pystr);
  synonyms : list (pystr * list pystr)
}.

Definition pairs (l : list (string * string)) : list (pystr * pystr) :=
  map (fun kv => (py kv.1, py kv.2)) l.

(** The table built by [_load_default_mappings], one [update] per group as in
    the source. *)
Definition default_skill_map : list (pystr * pystr) :=
  Eval vm_compute in
  let m0 := [] in
  let m1 := ODict.update m0 (pairs
    [("javascript", "JavaScript"); ("js", "JavaScript"); ("typescript", "TypeScript");
     ("ts", "TypeScript"); ("python", "Python"); ("py", "Python"); ("java", "Java");
     ("c#", "C#"); ("csharp", "C#"); ("c++", "C++"); ("cpp", "C++"); ("php", "PHP");
     ("ruby", "Ruby"); ("go", "Go"); ("golang", "Go"); ("swift", "Swift");
     ("kotlin", "Kotlin"); ("rust", "Rust"); ("scala", "Scala"); ("perl", "Perl");
     ("r", "R (language)")]%string) in
  let m2 := ODict.update m1 (pairs
    [("react", "React"); ("reactjs", "React"); ("react.js", "React");
     ("angular", "Angular"); ("angularjs", "AngularJS"); ("angular.js", "AngularJS");
     ("vue", "Vue.js"); ("vuejs", "Vue.js"); ("vue.js", "Vue.js"); ("node", "Node.js");
     ("nodejs", "Node.js"); ("node.js", "Node.js"); ("express", "Express.js");
     ("expressjs", "Express.js"); ("django", "Django"); ("flask", "Flask");
     ("spring", "Spring"); ("spring boot", "Spring Boot"); (".net", ".NET");
     ("dotnet", ".NET"); ("laravel", "Laravel"); ("rails", "Ruby on Rails");
     ("ror", "Ruby on Rails"); ("ruby on rails", "Ruby on Rails")]%string) in
  let m3 := ODict.update m2 (pairs
    [("sql", "SQL"); ("nosql", "NoSQL"); ("postgresql", "PostgreSQL");
     ("postgres", "PostgreSQL"); ("mysql", "MySQL"); ("mongo", "MongoDB");
     ("mongodb", "MongoDB"); ("oracle", "Oracle"); ("sqlserver", "SQL Server");
     ("sql server", "SQL Server"); ("sqlite", "SQLite"); ("redis", "Redis");
     ("elasticsearch", "Elasticsearch"); ("elastic search", "Elasticsearch");
     ("dynamo", "DynamoDB"); ("dynamodb", "DynamoDB")]%string) in
  let m4 := ODict.update m3 (pairs
    [("aws", "AWS"); ("amazon web services", "AWS"); ("azure", "Azure");
     ("microsoft azure", "Azure"); ("gcp", "Google Cloud");
     ("google cloud", "Google Cloud"); ("firebase", "Firebase"); ("heroku", "Heroku");
     ("docker", "Docker"); ("kubernetes", "Kubernetes"); ("k8s", "Kubernetes");
     ("jenkins", "Jenkins"); ("git", "Git"); ("github", "GitHub"); ("gitlab", "GitLab");
     ("bitbucket", "Bitbucket")]%string) in
  let m5 := ODict.update m4 (pairs
    [("vs code", "Visual Studio Code"); ("vscode", "Visual Studio Code");
     ("visual studio", "Visual Studio"); ("intellij", "IntelliJ IDEA");
     ("pycharm", "PyCharm"); ("webstorm", "WebStorm"); ("eclipse", "Eclipse");
     ("jira", "Jira"); ("confluence", "Confluence"); ("trello", "Trello");
     ("slack", "Slack"); ("photoshop", "Adobe Photoshop");
     ("illustrator", "Adobe Illustrator"); ("xd", "Adobe XD"); ("figma", "Figma");
     ("sketch", "Sketch")]%string) in
  let m6 := ODict.update m5 (pairs
    [("agile", "Agile"); ("ágil", "Agile"); ("scrum", "Scrum"); ("kanban", "Kanban");
     ("lean", "Lean"); ("waterfall", "Waterfall"); ("cascata", "Waterfall");
     ("tdd", "TDD"); ("bdd", "BDD"); ("xp", "XP"); ("extreme programming", "XP");
     ("devops", "DevOps"); ("ci/cd", "CI/CD"); ("cicd", "CI/CD");
     ("continuous integration", "CI/CD"); ("continuous delivery", "CI/CD")]%string) in
  ODict.update m6 (pairs
    [("comunicação", "Comunicação"); ("communication", "Comunicação");
     ("trabalho em equipe", "Trabalho em Equipe"); ("teamwork", "Trabalho em Equipe");
     ("liderança", "Liderança"); ("leadership", "Liderança");
     ("resolução de problemas", "Resolução de Problemas");
     ("problem solving", "Resolução de Problemas");
     ("pensamento crítico", "Pensamento Crítico");
     ("critical thinking", "Pensamento Crítico"); ("proativo", "Proatividade");
     ("proatividade", "Proatividade"); ("proactive", "Proatividade");
     ("adaptabilidade", "Adaptabilidade"); ("adaptability", "Adaptabilidade");
     ("flexibilidade", "Flexibilidade"); ("flexibility", "Flexibilidade");
     ("gerenciamento de tempo", "Gerenciamento de Tempo");
     ("time management", "Gerenciamento de Tempo"); ("negociação", "Negociação");
     ("negotiation", "Negociação")]%string).

Definition strs (l : list string) : list pystr := map py l.

(** The category sets of [__init__] as [_load_default_mappings] fills them, in
    the order of the [categories] dictionary. *)
Definition default_categories : list (pystr * list pystr) :=
  Eval vm_compute in
  [ (py "technical", strs
      ["JavaScript"; "TypeScript"; "Python"; "Java"; "C#"; "C++"; "PHP"; "Ruby"; "Go";
       "Swift"; "Kotlin"; "Rust"; "Scala"; "Perl"; "R (language)"; "HTML"; "CSS";
       "SQL"]%string);
    (py "soft", strs
      ["Comunicação"; "Trabalho em Equipe"; "Liderança"; "Resolução de Problemas";
       "Pensamento Crítico"; "Proatividade"; "Adaptabilidade"; "Flexibilidade";
       "Gerenciamento de Tempo"; "Negociação"; "Criatividade"; "Empatia";
       "Persuasão"]%string);
    (py "languages", []);
    (py "tools", strs
      ["Visual Studio Code"; "Visual Studio"; "IntelliJ IDEA"; "PyCharm"; "WebStorm";
       "Eclipse"; "Jira"; "Confluence"; "Trello"; "Slack"; "Adobe Photoshop";
       "Adobe Illustrator"; "Adobe XD"; "Figma"; "Sketch"]%string);
    (py "frameworks", strs
      ["React"; "Angular"; "AngularJS"; "Vue.js"; "Node.js"; "Express.js"; "Django";
       "Flask"; "Spring"; "Spring Boot"; ".NET"; "Laravel"; "Ruby on Rails"]%string);
    (py "databases", strs
      ["SQL"; "NoSQL"; "PostgreSQL"; "MySQL"; "MongoDB"; "Oracle"; "SQL Server";
       "SQLite"; "Redis"; "Elasticsearch"; "DynamoDB"]%string);
    (py "platforms", strs
      ["AWS"; "Azure"; "Google Cloud"; "Firebase"; "Heroku"; "Docker"; "Kubernetes";
       "Jenkins"; "Git"; "GitHub"; "GitLab"; "Bitbucket"]%string);
    (py "certifications", []);
    (py "methodologies", strs
      ["Agile"; "Scrum"; "Kanban"; "Lean"; "Waterfall"; "TDD"; "BDD"; "XP"; "DevOps";
       "CI/CD"]%string) ].

Definition default_synonyms : list (pystr * list pystr) :=
  Eval vm_compute in
  [ (py "JavaScript", strs ["JS"; "ECMAScript"; "Node.js"]%string);
    (py "Python", strs ["Py"; "Django"; "Flask"]%string);
    (py "AWS", strs ["Amazon Web Services"; "EC2"; "S3"; "Lambda"]%string);
    (py "Agile", strs ["Scrum"; "Kanban"; "Sprint"]%string);
    (py "SQL", strs ["Database"; "Queries"; "PostgreSQL"; "MySQL"]%string);
    (py "DevOps", strs ["CI/CD"; "Continuous Integration"; "Continuous Deployment"]%string) ].

(** [SkillMapper()] *)
Definition default_mapper : t :=
  {| skill_map := default_skill_map;
     categories := default_categories;
     synonyms := default_synonyms |}.

Definition len (s : pystr) : Q := inject_Z (Z.of_nat (length s)).

(** One iteration of the partial-match loop of [normalize_skill], on the pair
    [(best_match, best_score)]. *)
Definition partial_step (normalized : pystr) (st : option pystr * Q)
    (kv : pystr * pystr) : option pystr * Q :=
  let '(key, value) := kv in
  if str_in key normalized || str_in normalized key then
    if Qltb st.2 (len key) then (Some value, len key) else st
  else if Qltb (8 # 10) (Difflib.ratio key normalized) then
    let match_score := (Difflib.ratio key normalized * len key)%Q in
    if Qltb st.2 match_score then (Some value, match_score) else st
  else st.

Definition partial_match (m : list (pystr * pystr)) (normalized : pystr) : option pystr :=
  (fold_left (partial_step normalized) m (None, 0%Q)).1.

(** [skill[0].upper() + skill[1:] if skill else ""] *)
Definition capitalize_first (skill : pystr) : pystr :=
  match skill with
  | [] => []
  | c :: rest => upper_char c ++ rest
  end.

Definition normalize_skill_in (m : list (pystr * pystr)) (skill : pystr) : pystr :=
  match skill with
  | [] => []
  | _ =>
      let normalized := lower (strip skill) in
      match ODict.get normalized m with
      | Some v => v
      | None =>
          match partial_match m normalized with
          | Some (c :: v) => c :: v
          | _ => capitalize_first skill
          end
      end
  end.

Definition normalize_skill (self : t) (skill : pystr) : pystr :=
  normalize_skill_in (skill_map self) skill.

Definition soft_patterns : list pystr :=
  Eval vm_compute in strs
    ["comunicação"; "comunica"; "communication"; "equipe"; "team"; "grupo"; "group";
     "lideran"; "lead"; "gestão"; "management"; "resolução"; "solv"; "problem";
     "problema"; "crítico"; "critical"; "think"; "pens"; "criativ"; "creativ";
     "inovat"; "inov"; "adaptab"; "flex"; "empatia"; "empathy"; "organiza"; "planeja";
     "plan"; "aprend"; "learn"; "collabor"; "colabor"; "confli"; "negoci"; "negot";
     "persua"; "relationship"; "relacionamento"; "motivação"; "motivat"]%string.

Fixpoint first_category (norm_skill : pystr) (cats : list (pystr * list pystr)) : option pystr :=
  match cats with
  | [] => None
  | (category, skills) :: cats' =>
      if str_mem norm_skill skills then Some category else first_category norm_skill cats'
  end.

Definition categorize_skill (self : t) (skill : pystr) : pystr :=
  let norm_skill := normalize_skill self skill in
  match first_category norm_skill (categories self) with
  | Some category => category
  | None =>
      if existsb (fun pattern => str_in pattern (lower skill)) soft_patterns
      then py "soft" else py "technical"
  end.

(** The argument of [normalize_skills]: a list of skills, a dictionary of
    skill lists by category, or anything else (such as [None]). *)
Inductive skills_arg :=
| SkillsList (l : list pystr)
| SkillsDict (d : list (pystr * list pystr))
| SkillsOther.

(** [normalized[category].append(norm_skill)] unless it is there. *)
Definition append_new (category norm_skill : pystr) (normalized : list (pystr * list pystr))
    : list (pystr * list pystr) :=
  let cur := default [] (ODict.get category normalized) in
  if str_mem norm_skill cur then normalized
  else ODict.set category (cur ++ [norm_skill]) normalized.

Definition normalize_list_step (self : t) (normalized : list (pystr * list pystr))
    (skill : pystr) : list (pystr * list pystr) :=
  match skill with
  | [] => normalized
  | _ =>
      let norm_skill := normalize_skill self skill in
      let category := categorize_skill self norm_skill in
      if ODict.mem category normalized then append_new category norm_skill normalized
      else append_new (py "technical") norm_skill normalized
  end.

Definition normalize_dict_skill (self : t) (category : pystr)
    (normalized : list (pystr * list pystr)) (skill : pystr) : list (pystr * list pystr) :=
  match normalize_skill self skill with
  | [] => normalized
  | norm_skill => append_new category norm_skill normalized
  end.

Definition normalize_dict_step (self : t) (normalized : list (pystr * list pystr))
    (entry : pystr * list pystr) : list (pystr * list pystr) :=
  let '(category, skill_list) := entry in
  match skill_list with
  | [] => normalized
  | _ =>
      let normalized :=
        if ODict.mem category normalized then normalized
        else ODict.set category [] normalized in
      fold_left (normalize_dict_skill self category) skill_list normalized
  end.

Definition normalize_skills (self : t) (skills : skills_arg) : list (pystr * list pystr) :=
  let normalized := [(py "technical", []); (py "soft", [])] in
  match skills with
  | SkillsList l => fold_left (normalize_list_step self) l normalized
  | SkillsDict d => fold_left (normalize_dict_step self) d normalized
  | SkillsOther => normalized
  end.



End SkillMapper.

(** ** Python values, exceptions and dictionaries passed across the engine *)

Module Py.

(** A [float] that may be infinite or not a number (JSON answers of the
    external delegate can carry [Infinity] and [NaN]); [Fin q] also stands for
    the integer [q]. *)
Inductive pynum := Fin (q : Q) | PosInf | NegInf | NaN.

(** Dynamically typed values: what a JSON document or a job posting holds. *)
#[warnings="-register-all"]
Inductive pyval :=
| VNone
| VBool (b : bool)
| VNum (x : pynum)
| VStr (s : pystr)
| VList (l : list pyval)
| VDict (d : gmap string pyval).

(** Truth value of an object ([if x], [not x]). *)
Definition truthy (v : pyval) : bool :=
  match v with
  | VNone => false
  | VBool b => b
  | VNum (Fin q) => negb (Qeq_bool q 0)
  | VNum _ => true
  | VStr s => match s with [] => false | _ => true end
  | VList l => match l with [] => false | _ => true end
  | VDict d => negb (bool_decide (d = ∅))
  end.

(** Raised exceptions, with the message [str(e)] returns. *)
Inductive exn :=
| AttributeError (msg : pystr)
| TypeError (msg : pystr)
| ValueError (msg : pystr)
| Exception (msg : pystr).

Definition str_of_exn (e : exn) : pystr :=
  match e with
  | AttributeError m | TypeError m | ValueError m | Exception m => m
  end.

#[global] Instance exn_ret : MRet (sum exn) := λ _ x, inr x.
#[global] Instance exn_bind : MBind (sum exn) :=
  λ _ _ f m, match m with inl e => inl e | inr x => f x end.

(** The value stored under a key of a record-like dictionary: the key is
    absent, holds [None], or holds a value of the expected type. *)
Inductive field (A : Type) := Missing | Null | Val (a : A).
Arguments Missing {A}.
Arguments Null {A}.
Arguments Val {A} a.

(** [d.get(key, default)]: [None] of the result is Python's [None]. *)
Definition get_default {A} (f : field A) (default : A) : option A :=
  match f with Missing => Some default | Null => None | Val a => Some a end.

(** [d.get(key)] *)
Definition get {A} (f : field A) : option A :=
  match f with Val a => Some a | _ => None end.

(** [x.lower()] on a value that should be a string. *)
Definition lower_of (x : option pystr) : exn + pystr :=
  match x with
  | Some s => inr (lower s)
  | None => inl (AttributeError (py "'NoneType' object has no attribute 'lower'"))
  end.

(** [not s] for an optional string. *)
Definition falsy_str (x : option pystr) : bool :=
  match x with Some (_ :: _) => false | _ => true end.

(** [sep.join(l)] *)
Fixpoint join (sep : pystr) (l : list pystr) : pystr :=
  match l with
  | [] => []
  | [x] => x
  | x :: l' => x ++ sep ++ join sep l'
  end.

(** [round(x, 2)]: to the nearest hundredth, ties to the even one. *)
Definition round2 (x : Q) : Q :=
  let y := (x * 100)%Q in
  let n := Qfloor y in
  let r := (y - inject_Z n)%Q in
  let m := if Qltb r (1 # 2) then n
           else if Qltb (1 # 2) r then (n + 1)%Z
           else if Z.even n then n else (n + 1)%Z in
  (m # 100).

End Py.

Import Py.

(** ** services/matching/match_service.py *)

Module MatchService.

Import SkillMapper.

(** The entries and records the scorer reads, field by field. *)
Record experience := {
  exp_title : field pystr;
  exp_start_date : field pystr;
  exp_end_date : field pystr
}.

Record education := {
  edu_degree : field pystr;
  edu_field_of_study : field pystr
}.

Record resume := {
  resume_skills : field skills_arg;
  resume_experience : field (list experience);
  resume_education : field (list education);
  resume_title : field pystr
}.

Record job := {
  job_title : field pystr;
  job_experience_level : field pystr;
  job_requirements : field (list pystr);
  job_skills : field skills_arg
}.

(** [self.weights] *)
Definition w_skills_technical : Q := 35 # 100.
Definition w_skills_soft : Q := 15 # 100.
Definition w_experience : Q := 25 # 100.
Definition w_education : Q := 15 # 100.
Definition w_job_title_match : Q := 10 # 100.

Definition qlen {A} (l : list A) : Q := inject_Z (Z.of_nat (length l)).

(** A job skill matches when it contains, or is contained in, some résumé
    skill (both already lower-cased). *)
Definition skill_matches (resume_skills_norm : list pystr) (skill : pystr) : bool :=
  existsb (fun s => str_in s skill || str_in skill s) resume_skills_norm.

Definition _calculate_skills_match (resume_skills job_skills : list pystr) : Q :=
  match job_skills with
  | [] => 1
  | _ =>
      match resume_skills with
      | [] => 0
      | _ =>
          let resume_skills_norm := map lower resume_skills in
          let job_skills_norm := map lower job_skills in
          let matches := filter (fun skill => skill_matches resume_skills_norm skill)
                           job_skills_norm in
          let score := (qlen matches / qlen job_skills_norm)%Q in
          if (length job_skills_norm <? length resume_skills_norm)%nat then
            let bonus :=
              pymin (15 # 100)
                ((qlen resume_skills_norm - qlen job_skills_norm)
                   / qlen job_skills_norm * (15 # 100))%Q in
            pymin 1 (score + bonus)%Q
          else score
      end
  end.

Definition experience_levels : list (pystr * Z) :=
  Eval vm_compute in
  map (fun kv : string * Z => (py kv.1, kv.2))
    [("estágio", 0); ("júnior", 1); ("junior", 1); ("pleno", 2); ("sênior", 3);
     ("senior", 3); ("especialista", 3); ("gerente", 4); ("diretor", 5);
     ("executivo", 6)]%string%Z.

(** The first entry of a table whose key occurs in [text]. *)
Fixpoint first_key_in {V} (text : pystr) (table : list (pystr * V)) : option V :=
  match table with
  | [] => None
  | (k, v) :: table' => if str_in k text then Some v else first_key_in text table'
  end.

Definition candidate_level_of (total_months : Z) : Z :=
  if (total_months <? 6)%Z then 0
  else if (total_months <? 24)%Z then 1
  else if (total_months <? 60)%Z then 2
  else if (total_months <? 96)%Z then 3
  else if (total_months <? 120)%Z then 4
  else 5.

Section Experience.
  (** [datetime.fromisoformat], reduced to what the scorer reads of its
      result: the year and the month, or [None] when it raises [ValueError].
      [now] is [datetime.utcnow().isoformat()]. *)
  Variable fromisoformat : pystr → option (Z * Z).
  Variable now : pystr.

Definition parse_date (s : pystr) : option (Z * Z) :=
    fromisoformat (replace_char 90 (py "+00:00") s).

  (** One iteration of the loop over the résumé's experience entries, on the
      pair [(total_months, relevant_experience)]. *)
Definition experience_step (j : job) (acc : Z * Z) (exp : experience) : exn + (Z * Z) :=
    let '(total_months, relevant_experience) := acc in
    match get (exp_start_date exp) with
    | None | Some [] => inr acc
    | Some start_date =>
        let end_date := get_default (exp_end_date exp) now in
        match parse_date start_date with
        | None => inr ((total_months + 12)%Z, relevant_experience)
        | Some (start_year, start_month) =>
            match end_date with
            | None =>
                inl (AttributeError (py "'NoneType' object has no attribute 'replace'"))
            | Some end_date =>
                match parse_date end_date with
                | None => inr ((total_months + 12)%Z, relevant_experience)
                | Some (end_year, end_month) =>
                    let months :=
                      ((end_year - start_year) * 12 + (end_month - start_month))%Z in
                    let total_months := (total_months + months)%Z in
                    exp_title_l ← lower_of (get_default (exp_title exp) []);
                    job_title_l ← lower_of (get_default (job_title j) []);
                    if str_in exp_title_l job_title_l || str_in job_title_l exp_title_l
                    then inr (total_months, (relevant_experience + months)%Z)
                    else inr (total_months, relevant_experience)
                end
            end
        end
    end.

Fixpoint experience_loop (j : job) (acc : Z * Z) (l : list experience) : exn + (Z * Z) :=
    match l with
    | [] => inr acc
    | exp :: l' => acc' ← experience_step j acc exp; experience_loop j acc' l'
    end.

Definition _calculate_experience_match (resume_experience : option (list experience))
      (j : job) : exn + Q :=
    match resume_experience with
    | None | Some [] => inr 0%Q
    | Some entries =>
        job_experience_level ← lower_of (get_default (job_experience_level j) []);
        let job_level_value :=
          default 0%Z (first_key_in job_experience_level experience_levels) in
        '(total_months, relevant_experience) ← experience_loop j (0, 0)%Z entries;
        let candidate_level := candidate_level_of total_months in
        let score :=
          if (job_level_value <=? candidate_level)%Z then 1%Q
          else pymax 0 (1 - inject_Z (job_level_value - candidate_level) * (25 # 100))%Q in
        if (0 <? relevant_experience)%Z then
          let relevance_bonus :=
            pymin (2 # 10) (inject_Z relevant_experience / 36 * (2 # 10))%Q in
          inr (pymin 1 (score + relevance_bonus)%Q)
        else inr score
    end.
End Experience.

Definition education_terms : list pystr :=
  Eval vm_compute in strs ["formação"; "graduação"; "ensino"; "degree"; "education"]%string.

Definition education_fields : list pystr :=
  Eval vm_compute in strs
    ["computação"; "sistemas"; "ti"; "informática"; "software"; "engenharia";
     "administração"; "negócios"; "marketing"; "design"; "comunicação"; "direito";
     "economia"; "contabilidade"; "finanças"; "recursos humanos"; "rh"]%string.

Definition degree_levels : list (pystr * Z) :=
  Eval vm_compute in
  map (fun kv : string * Z => (py kv.1, kv.2))
    [("ensino médio", 1); ("técnico", 2); ("superior", 3); ("graduação", 3);
     ("bacharelado", 3); ("licenciatura", 3); ("tecnólogo", 3); ("pós-graduação", 4);
     ("especialização", 4); ("mba", 4); ("mestrado", 5); ("doutorado", 6);
     ("phd", 6)]%string%Z.

(** A requirement mentions education. *)
Definition mentions_education (req_lower : pystr) : bool :=
  existsb (fun term => str_in term req_lower) education_terms.

Definition required_degree_of (req_lower : pystr) : option pystr :=
  let has (w : string) := str_in (py w) req_lower in
  if has "superior" || has "graduação" || has "bachelor" then Some (py "superior")
  else if has "pós" || has "especialização" || has "post-grad" then Some (py "pos")
  else if has "mestrado" || has "master" then Some (py "mestrado")
  else if has "doutorado" || has "phd" then Some (py "doutorado")
  else if has "técnico" || has "technical" then Some (py "tecnico")
  else None.

Definition required_field_of (req_lower : pystr) : option pystr :=
  find (fun field => str_in field req_lower) education_fields.

(** The loop over the job's requirements: the first one that mentions
    education decides [(required_degree, required_field)]; [None] when no
    requirement does ([education_required] stays [False]). *)
Fixpoint education_requirement (job_requirements : list pystr)
    : option (option pystr * option pystr) :=
  match job_requirements with
  | [] => None
  | req :: reqs =>
      let req_lower := lower req in
      if mentions_education req_lower
      then Some (required_degree_of req_lower, required_field_of req_lower)
      else education_requirement reqs
  end.

(** The first key of a table that occurs in it as [text in key]. *)
Fixpoint first_key_containing {V} (text : pystr) (table : list (pystr * V)) : option V :=
  match table with
  | [] => None
  | (k, v) :: table' => if str_in text k then Some v else first_key_containing text table'
  end.

(** One iteration of the loop over the résumé's education entries, on the pair
    [(candidate_level, field_match)]. *)
Definition education_step (required_field : option pystr) (acc : Z * bool)
    (edu : education) : exn + (Z * bool) :=
  let '(candidate_level, field_match) := acc in
  degree ← lower_of (get_default (edu_degree edu) []);
  field ← lower_of (get_default (edu_field_of_study edu) []);
  let level := default 0%Z (first_key_in degree degree_levels) in
  let candidate_level := Z.max candidate_level level in
  match required_field with
  | Some (c :: rf) =>
      if str_in (c :: rf) field || str_in field (c :: rf)
      then inr (candidate_level, true)
      else inr (candidate_level, field_match)
  | _ => inr (candidate_level, field_match)
  end.

Fixpoint education_loop (required_field : option pystr) (acc : Z * bool)
    (l : list education) : exn + (Z * bool) :=
  match l with
  | [] => inr acc
  | edu :: l' => acc' ← education_step required_field acc edu;
                 education_loop required_field acc' l'
  end.

Definition _calculate_education_match (resume_education : option (list education))
    (j : job) : exn + Q :=
  match resume_education with
  | None | Some [] => inr 0%Q
  | Some entries =>
      match get_default (job_requirements j) [] with
      | None => inl (TypeError (py "'NoneType' object is not iterable"))
      | Some job_requirements =>
          match education_requirement job_requirements with
          | None => inr 1%Q
          | Some (required_degree, required_field) =>
              let required_level :=
                match required_degree with
                | Some (c :: d) => default 3%Z (first_key_containing (c :: d) degree_levels)
                | _ => 3%Z
                end in
              '(candidate_level, field_match) ← education_loop required_field (0%Z, false) entries;
              let level_score :=
                if (required_level <=? candidate_level)%Z then 1%Q
                else pymax 0 (1 - inject_Z (required_level - candidate_level) * (3 # 10))%Q in
              let final_score :=
                match required_field with
                | Some (_ :: _) =>
                    if (field_match : bool) then pymin 1 (level_score + (2 # 10))%Q
                    else pymax 0 (level_score - (2 # 10))%Q
                | _ => level_score
                end in
              inr final_score
          end
      end
  end.

Definition stop_words : gset pystr :=
  Eval vm_compute in
  list_to_set (strs ["de"; "da"; "do"; "e"; "para"; "no"; "na"; "em"; "com"; "o"; "a";
                     "os"; "as"]%string).

(** The word set of a title: [set(title.lower().split()) - stop_words]. *)
Definition title_words (title : pystr) : gset pystr :=
  list_to_set (split (lower title)) ∖ stop_words.

Definition _calculate_job_title_match (resume_title job_title : option pystr) : Q :=
  match resume_title, job_title with
  | Some (r :: rt), Some (j :: jt) =>
      let job_title_norm := lower (j :: jt) in
      let resume_words := title_words (r :: rt) in
      let job_words := title_words (j :: jt) in
      if bool_decide (resume_words = ∅) || bool_decide (job_words = ∅) then 1 # 2
      else
        let intersection := resume_words ∩ job_words in
        let union := resume_words ∪ job_words in
        let jaccard := (inject_Z (Z.of_nat (size intersection))
                        / inject_Z (Z.of_nat (size union)))%Q in
        let direct_match :=
          existsb (fun word => (3 <? length word)%nat && str_in word job_title_norm)
            (elements resume_words) in
        if direct_match then pymin 1 (jaccard + (3 # 10))%Q else jaccard
  | _, _ => 1 # 2
  end.

(** The first loop of [_identify_skill_gaps], one job skill at a time. *)
Definition gap_step (resume_skills : list pystr) (matching_skills : list pystr)
    (job_skill : pystr) : list pystr :=
  let job_skill_lower := lower job_skill in
  if existsb (fun resume_skill =>
                let resume_skill_lower := lower resume_skill in
                str_in job_skill_lower resume_skill_lower
                || str_in resume_skill_lower job_skill_lower) resume_skills
  then if str_mem job_skill matching_skills then matching_skills
       else matching_skills ++ [job_skill]
  else matching_skills.

Definition _identify_skill_gaps (resume_skills job_skills : list pystr)
    : list pystr * list pystr :=
  let matching_skills := fold_left (gap_step resume_skills) job_skills [] in
  let missing_skills :=
    filter (fun job_skill => negb (str_mem job_skill matching_skills)) job_skills in
  (matching_skills, missing_skills).

Definition _generate_recommendations (missing_skills : list pystr) (j : job) : list pystr :=
  let r1 :=
    match missing_skills with
    | [] => []
    | _ =>
        [py "Adicione ao seu currículo as seguintes habilidades (caso você as possua): "
           ++ join (py ", ") (take 5 missing_skills)]
        ++ (if (5 <? length missing_skills)%nat
            then [py "Considere desenvolver conhecimento nas demais habilidades: "
                    ++ join (py ", ") (drop 5 missing_skills)]
            else [])
    end in
  let r2 :=
    match get_default (job_title j) [] with
    | Some (c :: t) =>
        [py "Adapte seu objetivo profissional para alinhar-se ao cargo de '"
           ++ (c :: t) ++ py "'"]
    | _ => []
    end in
  let r3 :=
    match get_default (job_experience_level j) [] with
    | Some (c :: l) =>
        if str_mem (lower (c :: l)) (strs ["pleno"; "sênior"; "senior"; "gerente"]%string)
        then [py "Destaque suas realizações e resultados quantificáveis nas experiências anteriores"]
        else []
    | _ => []
    end in
  r1 ++ r2 ++ r3
  ++ [py "Personalize sua carta de apresentação mencionando especificamente como suas habilidades se alinham com os requisitos desta vaga"].

(** [d.get('skills', [])] as the argument of [normalize_skills]. *)
Definition skills_of (f : field skills_arg) : skills_arg :=
  match f with Missing => SkillsList [] | Null => SkillsOther | Val a => a end.

(** [mapped.get(category, [])] *)
Definition category_of (mapped : list (pystr * list pystr)) (category : string) : list pystr :=
  default [] (ODict.get (py category) mapped).

Definition strings (l : list pystr) : pyval := VList (VStr <$> l).
Definition number (q : Q) : pyval := VNum (Fin q).

Section Service.
  (** The collaborators of a [MatchService]: its skill mapper, the
      [calculate_match] of its delegate (an injected object: the call returns
      a dictionary, as annotated, or raises), and the clock and date parser
      of the standard library. *)
  Variable skill_mapper : SkillMapper.t.
  Variable claude_calculate_match : resume → job → exn + gmap string pyval.
  Variable fromisoformat : pystr → option (Z * Z).
  Variable now : pystr.

  (** The body of the second [try] of [calculate_match]: the internal
      algorithm. *)
Definition internal_match (resume_data : resume) (job_data : job)
      : exn + gmap string pyval :=
    let mapped_resume_skills :=
      normalize_skills skill_mapper (skills_of (resume_skills resume_data)) in
    let mapped_job_skills :=
      normalize_skills skill_mapper (skills_of (job_skills job_data)) in
    let technical_skills_score :=
      _calculate_skills_match (category_of mapped_resume_skills "technical")
        (category_of mapped_job_skills "technical") in
    let soft_skills_score :=
      _calculate_skills_match (category_of mapped_resume_skills "soft")
        (category_of mapped_job_skills "soft") in
    experience_score ←
      _calculate_experience_match fromisoformat now
        (get_default (resume_experience resume_data) []) job_data;
    education_score ←
      _calculate_education_match (get_default (resume_education resume_data) []) job_data;
    let job_title_score :=
      _calculate_job_title_match (get_default (resume_title resume_data) [])
        (get_default (job_title job_data) []) in
    let overall_score :=
      (technical_skills_score * w_skills_technical
       + soft_skills_score * w_skills_soft
       + experience_score * w_experience
       + education_score * w_education
       + job_title_score * w_job_title_match)%Q in
    let overall_score := pymin 100 (pymax 0 (overall_score * 100)%Q) in
    let '(matching_skills, missing_skills) :=
      _identify_skill_gaps
        (category_of mapped_resume_skills "technical" ++ category_of mapped_resume_skills "soft")
        (category_of mapped_job_skills "technical" ++ category_of mapped_job_skills "soft") in
    let recommendations := _generate_recommendations missing_skills job_data in
    inr (<["score_overall" := number (round2 overall_score)]>
         (<["score_details" :=
              VDict (<["technical_skills" := number (round2 (technical_skills_score * 100))]>
                    (<["soft_skills" := number (round2 (soft_skills_score * 100))]>
                    (<["experience" := number (round2 (experience_score * 100))]>
                    (<["education" := number (round2 (education_score * 100))]>
                    (<["job_title" := number (round2 (job_title_score * 100))]> ∅)))))]>
         (<["matching_skills" := strings matching_skills]>
         (<["missing_skills" := strings missing_skills]>
         (<["recommendations" := strings recommendations]>
         (<["created_at" := VStr now]> ∅)))))).

  (** What [calculate_match] returns once the delegate is out of the way. *)
Definition internal_result (resume_data : resume) (job_data : job) : gmap string pyval :=
    match internal_match resume_data job_data with
    | inr match_result => match_result
    | inl e =>
        <["score_overall" := number 0]>
        (<["error" := VStr (str_of_exn e)]>
        (<["created_at" := VStr now]> ∅))
    end.

Definition calculate_match (resume_data : resume) (job_data : job) (use_claude : bool)
      : gmap string pyval :=
    if use_claude then
      match claude_calculate_match resume_data job_data with
      | inr match_result => <["created_at" := VStr now]> match_result
      | inl _ => internal_result resume_data job_data
      end
    else internal_result resume_data job_data.
End Service.

End MatchService.

(** ** services/ai/claude_service.py: the score normalisation of
    [calculate_match] *)

Module ClaudeService.

Import MatchService.

(** Comparison of floats: every comparison with [NaN] is false. *)
Definition num_lt (x y : pynum) : bool :=
  match x, y with
  | NaN, _ | _, NaN => false
  | Fin a, Fin b => Qltb a b
  | NegInf, NegInf | PosInf, _ => false
  | NegInf, _ | Fin _, PosInf => true
  | Fin _, NegInf => false
  end.

Definition num_le (x y : pynum) : bool :=
  match x, y with
  | NaN, _ | _, NaN => false
  | Fin a, Fin b => Qle_bool a b
  | NegInf, _ | _, PosInf => true
  | PosInf, _ | Fin _, NegInf => false
  end.

Definition num_min (a b : pynum) : pynum := if num_lt b a then b else a.
Definition num_max (a b : pynum) : pynum := if num_lt a b then b else a.

Definition times100 (x : pynum) : pynum :=
  match x with Fin q => Fin (q * 100) | _ => x end.

(** The [if]/[elif]/[else] on [score] (lines 257-265). *)
Definition normalize_score (score : pynum) : pynum :=
  if num_lt (Fin 1) score && num_le score (Fin 100) then score
  else if num_le (Fin 0) score && num_le score (Fin 1) then times100 score
  else num_max (Fin 0) (num_min (Fin 100) score).

Section Service.
  (** [answer resume job] is the dictionary [result] the method holds once the
      delegate has been asked and its text parsed ([extract_json], or
      [_fallback_match_parsing] when that gives nothing), or the exception
      raised on the way. [float_of_str] is [float] on a string. *)
  Variable answer : resume → job → exn + gmap string pyval.
  Variable float_of_str : pystr → option pynum.

  (** [float(v)] *)
Definition float (v : pyval) : exn + pynum :=
    match v with
    | VNum x => inr x
    | VBool b => inr (Fin (if b then 1 else 0))
    | VStr s =>
        match float_of_str s with
        | Some x => inr x
        | None => inl (ValueError (py "could not convert string to float"))
        end
    | _ => inl (TypeError (py "float() argument must be a string or a real number"))
    end.

Definition calculate_match (resume_data : resume) (job_data : job)
      : exn + gmap string pyval :=
    result ← answer resume_data job_data;
    match result !! "score_overall" with
    | None => inr (<["score_overall" := VNum (Fin 0)]> result)
    | Some v =>
        score ← float v;
        inr (<["score_overall" := VNum (normalize_score score)]> result)
    end.
End Service.

End ClaudeService.

(** ** services/matching/job_analyzer.py: [analyze] and [analyze_job_batch] *)

Module JobAnalyzer.

Section Analyzer.
  (** The collaborators of a [JobAnalyzer]: the delegate's [parse_job_post]
      when a delegate was given (it returns a dictionary, as annotated, or
      raises), the two regular-expression extractors (they raise on a
      description that is not text), and the clock. *)
  Variable claude_parse_job_post : option (gmap string pyval → exn + gmap string pyval).
  Variable _extract_job_data : pyval → exn + gmap string pyval.
  Variable _extract_skills : pyval → exn + pyval.
  Variable now : pystr.

  (** [key not in analyzed_job or not analyzed_job[key]], key by key. *)
Definition fill_in (analyzed_job extracted_data : gmap string pyval) : gmap string pyval :=
    union_with (λ old new, Some (if truthy old then old else new)) analyzed_job extracted_data.

  (** The body of the second [try] of [analyze]. *)
Definition analyze_internal (job_data : gmap string pyval) (description : pyval)
      : exn + gmap string pyval :=
    extracted_data ← _extract_job_data description;
    let analyzed_job := fill_in job_data extracted_data in
    analyzed_job ←
      (if truthy (default VNone (analyzed_job !! "skills")) then inr analyzed_job
       else skills ← _extract_skills description;
            inr (<["skills" := skills]> analyzed_job));
    inr (<["analyzed_at" := VStr now]> analyzed_job).

Definition analyze_fallback (job_data : gmap string pyval) (description : pyval)
      : gmap string pyval :=
    match analyze_internal job_data description with
    | inr analyzed_job => analyzed_job
    | inl e => <["error" := VStr (str_of_exn e)]> job_data
    end.

Definition analyze (job_data : gmap string pyval) (use_claude : bool)
      : exn + gmap string pyval :=
    let description := default (VStr []) (job_data !! "description") in
    if negb (truthy description) then
      inr (<["error" := VStr (py "Descrição da vaga está vazia")]>
           (<["original_data" := VDict job_data]> ∅))
    else
      match (if use_claude then claude_parse_job_post else None) with
      | Some parse_job_post =>
          match parse_job_post job_data with
          | inr analyzed_job => inr (analyzed_job ∪ job_data)
          | inl _ => inr (analyze_fallback job_data description)
          end
      | None => inr (analyze_fallback job_data description)
      end.
End Analyzer.

Section Batch.
  (** [self.analyze], as the loop of [analyze_job_batch] sees it: a call that
      returns an analysed posting or raises. *)
  Variable analyze : gmap string pyval → bool → exn + gmap string pyval.

Definition batch_step (use_claude : bool) (analyzed_jobs : list (gmap string pyval))
      (job_data : gmap string pyval) : list (gmap string pyval) :=
    match analyze job_data use_claude with
    | inr analyzed_job => analyzed_jobs ++ [analyzed_job]
    | inl e => analyzed_jobs ++ [<["error" := VStr (str_of_exn e)]> job_data]
    end.

Definition analyze_job_batch (job_list : list (gmap string pyval)) (use_claude : bool)
      : list (gmap string pyval) :=
    fold_left (batch_step use_claude) job_list [].
End Batch.

End JobAnalyzer.

(** ** datetime.fromisoformat on the strings [isoformat] emits

    A reference parser for the closed examples below: a date [YYYY-MM-DD],
    alone or followed by a separator and a time [HH:MM:SS], with optional
    microseconds and UTC offset. The theorems hold for every parser. *)

Module Datetime.

Definition digit (c : N) : option Z :=
  if ((48 <=? c) && (c <=? 57))%N then Some (Z.of_N c - 48)%Z else None.

Definition two_digits (a b : N) : option Z :=
  x ← digit a; y ← digit b; Some (10 * x + y)%Z.

Definition is_leap (y : Z) : bool :=
  ((y mod 4 =? 0) && negb (y mod 100 =? 0) || (y mod 400 =? 0))%Z.

Definition days_in_month (y m : Z) : Z :=
  if (m =? 2)%Z then (if is_leap y then 29 else 28)
  else if ((m =? 4) || (m =? 6) || (m =? 9) || (m =? 11))%Z then 30 else 31.

Definition valid_offset (s : pystr) : bool :=
  match s with
  | [] => true
  | [sign; h1; h2; 58; m1; m2]%N =>
      ((sign =? 43) || (sign =? 45))%N
      && match two_digits h1 h2, two_digits m1 m2 with
         | Some h, Some m => ((h <? 24) && (m <? 60))%Z
         | _, _ => false
         end
  | _ => false
  end.

Definition valid_fraction (s : pystr) : bool :=
  match s with
  | 46 :: f1 :: f2 :: f3 :: f4 :: f5 :: f6 :: off =>
      forallb (fun c => bool_decide (is_Some (digit c))) [f1; f2; f3; f4; f5; f6]
      && valid_offset off
  | off => valid_offset off
  end%N.

Definition valid_time (s : pystr) : bool :=
  match s with
  | h1 :: h2 :: 58 :: m1 :: m2 :: 58 :: s1 :: s2 :: rest =>
      match two_digits h1 h2, two_digits m1 m2, two_digits s1 s2 with
      | Some h, Some m, Some sec =>
          ((h <? 24) && (m <? 60) && (sec <? 60))%Z && valid_fraction rest
      | _, _, _ => false
      end
  | _ => false
  end%N.

Definition fromisoformat (s : pystr) : option (Z * Z) :=
  match s with
  | y1 :: y2 :: y3 :: y4 :: 45 :: m1 :: m2 :: 45 :: d1 :: d2 :: rest =>
      hi ← two_digits y1 y2; lo ← two_digits y3 y4;
      month ← two_digits m1 m2; day ← two_digits d1 d2;
      let year := (100 * hi + lo)%Z in
      if ((1 <=? year) && (1 <=? month) && (month <=? 12) && (1 <=? day)
          && (day <=? days_in_month year month))%Z
         && match rest with [] => true | _ :: time => valid_time time end
      then Some (year, month) else None
  | _ => None
  end%N.

End Datetime.

(** ** Vocabulary of the specification

    The notions the specified properties are stated with, independent of the
    code that computes them. *)

Module Spec.

Import SkillMapper MatchService.

(** [x] occurs in [y] as a contiguous substring. *)
Definition substring (x y : pystr) : Prop := ∃ pre post, y = pre ++ x ++ post.


(** [count_matching P l n]: exactly [n] elements of [l], each counted as
    often as it occurs, satisfy [P]. *)
Inductive count_matching (P : pystr → Prop) : list pystr → nat → Prop :=
| count_nil : count_matching P [] 0
| count_hit x l n : P x → count_matching P l n → count_matching P (x :: l) (S n)
| count_miss x l n : ¬ P x → count_matching P l n → count_matching P (x :: l) n.

(** The surplus bonus of the skills sub-score. *)
Definition surplus_bonus (resume_skills job_skills : list pystr) : Q :=
  if (length job_skills <? length resume_skills)%nat then
    Qmin (15 # 100)
      ((qlen resume_skills - qlen job_skills) / qlen job_skills * (15 # 100))%Q
  else 0.

(** No requirement of the job mentions an education keyword. *)
Definition no_education_keyword (job_requirements : list pystr) : Prop :=
  ∀ req term, req ∈ job_requirements → term ∈ education_terms →
    ¬ substring term (lower req).





(** [score_overall] is a finite number of [0, 100]. *)
Definition overall_in_range (r : gmap string pyval) : Prop :=
  ∃ q, r !! "score_overall" = Some (VNum (Fin q)) ∧ (0 <= q)%Q ∧ (q <= 100)%Q.

(** Every value of [score_details], when present, is a finite number of
    [0, 100]. *)
Definition details_in_range (r : gmap string pyval) : Prop :=
  ∀ v, r !! "score_details" = Some v →
    ∃ d, v = VDict d ∧
      ∀ k x, d !! k = Some x → ∃ q, x = VNum (Fin q) ∧ (0 <= q)%Q ∧ (q <= 100)%Q.

(** The degraded record: a zero score and an error message. *)
Definition error_record (r : gmap string pyval) : Prop :=
  r !! "score_overall" = Some (VNum (Fin 0)) ∧ ∃ msg, r !! "error" = Some (VStr msg).

(** The five factors of a complete record. *)
Definition factors : list string :=
  ["technical_skills"; "soft_skills"; "experience"; "education"; "job_title"]%string.

Definition complete_record (r : gmap string pyval) : Prop :=
  ∃ d, r !! "score_details" = Some (VDict d) ∧ ∀ k, k ∈ factors → is_Some (d !! k).

(** The word set of an optional title. *)
Definition words_of (title : option pystr) : gset pystr :=
  match title with Some s => title_words s | None => ∅ end.

(** Jaccard similarity of two word sets. *)
Definition jaccard (a b : gset pystr) : Q :=
  (inject_Z (Z.of_nat (size (a ∩ b))) / inject_Z (Z.of_nat (size (a ∪ b))))%Q.

Section Dates.
  Variable fromisoformat : pystr → option (Z * Z).
  Variable now : pystr.

  (** The start and end dates of an experience entry as the scorer reads
      them, when both are there and parse. *)
Definition entry_dates (exp : experience) : option ((Z * Z) * (Z * Z)) :=
    start_date ← get (exp_start_date exp);
    start ← parse_date fromisoformat start_date;
    end_date ← get_default (exp_end_date exp) now;
    end_ ← parse_date fromisoformat end_date;
    Some (start, end_).

  (** The months an entry adds to [total_months]. *)
Definition months_added (j : job) (exp : experience) : option Z :=
    match experience_step fromisoformat now j (0, 0)%Z exp with
    | inr (total_months, _) => Some total_months
    | inl _ => None
    end.
End Dates.

(** What the batch keeps of a posting: the analysis, or the posting with the
    error attached. *)
Definition batch_outcome (analyze : gmap string pyval → bool → exn + gmap string pyval)
    (use_claude : bool) (job_data : gmap string pyval) : gmap string pyval :=
  match analyze job_data use_claude with
  | inr analyzed_job => analyzed_job
  | inl e => <["error" := VStr (str_of_exn e)]> job_data
  end.

End Spec.

(** ** Auxiliary notions of the proofs *)

Module Aux.

Import SkillMapper MatchService.

(** A sub-score lies in [0, 1]. *)
Definition unit_range (q : Q) : Prop := (0 <= q)%Q ∧ (q <= 1)%Q.

(** The job skills counted by [_calculate_skills_match], lower-cased. *)
Definition matched (resume_skills job_skills : list pystr) : list pystr :=
  filter (λ skill, skill_matches (map lower resume_skills) skill) (map lower job_skills).



End Aux.

(** ** Sample data for the closed examples *)

Module Examples.

Import SkillMapper MatchService.

Definition clock : pystr := py "2024-03-01T09:30:00".

(** A posting whose requirements mention no education keyword. *)
Definition backend_job : job :=
  {| job_title := Val (py "Desenvolvedor Backend");
     job_experience_level := Val (py "Pleno");
     job_requirements := Val [py "Experiência com Python"; py "Conhecimento em SQL"];
     job_skills := Val (SkillsList [py "Python"; py "Django"; py "SQL"]) |}.

(** A posting read from a nullable column: its experience level is [None]. *)
Definition unlevelled_job : job :=
  {| job_title := Val (py "Desenvolvedor Backend");
     job_experience_level := Null;
     job_requirements := Val [py "Experiência com Python"];
     job_skills := Val (SkillsList [py "Python"]) |}.

Definition bachelor : education :=
  {| edu_degree := Val (py "Bacharelado");
     edu_field_of_study := Val (py "Sistemas de Informação") |}.

(** Experience entries: one with no start date, one with an empty start
    date, one whose end date is the word the résumé analyser writes for a
    current position, and one with two ISO dates. *)
Definition undated_position : experience :=
  {| exp_title := Val (py "Desenvolvedor"); exp_start_date := Missing;
     exp_end_date := Missing |}.

Definition blank_start_position : experience :=
  {| exp_title := Val (py "Desenvolvedor"); exp_start_date := Val [];
     exp_end_date := Val (py "2021-06-30") |}.

Definition current_position : experience :=
  {| exp_title := Val (py "Desenvolvedor"); exp_start_date := Val (py "2020-01-15");
     exp_end_date := Val (py "Presente") |}.

Definition past_position : experience :=
  {| exp_title := Val (py "Desenvolvedor Backend");
     exp_start_date := Val (py "2018-03-01"); exp_end_date := Val (py "2020-01-01") |}.

Definition candidate : resume :=
  {| resume_skills := Val (SkillsList [py "python"; py "sql"; py "vscode"]);
     resume_experience := Val [past_position; current_position];
     resume_education := Val [bachelor];
     resume_title := Val (py "Desenvolvedor Python") |}.

(** An answer of the delegate whose overall score is sound and whose
    breakdown is not: a value above 100. *)
Definition delegate_answer : gmap string pyval :=
  <["score_overall" := VNum (Fin 85)]>
  (<["score_details" := VDict (<["technical_skills" := VNum (Fin 150)]> ∅)]> ∅).

(** The repository's delegate giving that answer (it holds numbers only, so
    [float] is never taken on a string). *)
Definition delegate : resume → job → exn + gmap string pyval :=
  ClaudeService.calculate_match (λ _ _, inr delegate_answer) (λ _, None).

(** An injected delegate that answers as the stand-in of the unit tests does:
    a dictionary with a [compatibility] block and no [score_overall]. *)
Definition stand_in_answer : gmap string pyval :=
  <["compatibility" :=
      VDict (<["skills_technical" := VNum (Fin 85)]>
            (<["experience" := VNum (Fin 75)]>
            (<["education" := VNum (Fin 90)]>
            (<["overall" := VNum (Fin 80)]> ∅))))]>
  (<["recommendations" := VList [VStr (py "Highlight cloud infrastructure experience")]]> ∅).

Definition stand_in : resume → job → exn + gmap string pyval :=
  λ _ _, inr stand_in_answer.



(** Postings of a batch: one without description, one with. *)
Definition empty_posting : gmap string pyval :=
  <["title" := VStr (py "Analista")]> ∅.

Definition posting : gmap string pyval :=
  <["title" := VStr (py "Analista")]>
  (<["description" := VStr (py "Requisitos: SQL")]> ∅).

End Examples.

(** * Theorems *)

(** ** Arithmetic of scores *)

Module ScoreFacts.

Lemma Qltb_lt (x y : Q) : Qltb x y = true ↔ (x < y)%Q.
Proof.
  unfold Qltb. rewrite negb_true_iff. split.
  - intros H. apply Qnot_le_lt. intros Hle.
    apply Qle_bool_iff in Hle. congruence.
  - intros H. destruct (Qle_bool y x) eqn:E; [|done].
    apply Qle_bool_iff in E. exfalso. by apply (Qlt_not_le x y).
Qed.

Lemma Qltb_ge (x y : Q) : Qltb x y = false ↔ (y <= x)%Q.
Proof.
  unfold Qltb. rewrite negb_false_iff. apply Qle_bool_iff.
Qed.

Lemma pymin_le_l (a b : Q) : (pymin a b <= a)%Q.
Proof.
  unfold pymin. destruct (Qltb b a) eqn:E.
  - apply Qltb_lt in E. by apply Qlt_le_weak.
  - apply Qle_refl.
Qed.

Lemma pymin_le_r (a b : Q) : (pymin a b <= b)%Q.
Proof.
  unfold pymin. destruct (Qltb b a) eqn:E.
  - apply Qle_refl.
  - by apply Qltb_ge in E.
Qed.

Lemma pymin_glb (z a b : Q) : (z <= a)%Q → (z <= b)%Q → (z <= pymin a b)%Q.
Proof. intros. unfold pymin. by destruct (Qltb b a). Qed.

Lemma pymin_Qmin (a b : Q) : (pymin a b == Qmin a b)%Q.
Proof.
  apply Qle_antisym.
  - apply Q.min_glb; [apply pymin_le_l | apply pymin_le_r].
  - apply pymin_glb; [apply Q.le_min_l | apply Q.le_min_r].
Qed.

Lemma pymin_mono (a b b' : Q) : (b <= b')%Q → (pymin a b <= pymin a b')%Q.
Proof.
  intros H. apply pymin_glb; [apply pymin_le_l|].
  eapply Qle_trans; [apply pymin_le_r | done].
Qed.

Lemma pymax_ge_l (a b : Q) : (a <= pymax a b)%Q.
Proof.
  unfold pymax. destruct (Qltb a b) eqn:E.
  - apply Qltb_lt in E. by apply Qlt_le_weak.
  - apply Qle_refl.
Qed.

Lemma pymax_lub (z a b : Q) : (a <= z)%Q → (b <= z)%Q → (pymax a b <= z)%Q.
Proof. intros. unfold pymax. by destruct (Qltb a b). Qed.

Lemma Qdiv_le_mono (x y z : Q) : (0 < z)%Q → (x <= y)%Q → (x / z <= y / z)%Q.
Proof.
  intros Hz Hxy. unfold Qdiv. apply Qmult_le_compat_r; [done|].
  apply Qlt_le_weak. by apply Qinv_lt_0_compat.
Qed.

Lemma Qdiv_nonneg (x z : Q) : (0 <= x)%Q → (0 < z)%Q → (0 <= x / z)%Q.
Proof.
  intros Hx Hz. unfold Qdiv. apply Qmult_le_0_compat; [done|].
  apply Qlt_le_weak. by apply Qinv_lt_0_compat.
Qed.

Lemma Qdiv_le_1 (x z : Q) : (0 < z)%Q → (x <= z)%Q → (x / z <= 1)%Q.
Proof.
  intros Hz Hx. apply Qle_shift_div_r; [done|]. by rewrite Qmult_1_l.
Qed.

Lemma inject_nat_le (n m : nat) :
  (n ≤ m)%nat → (inject_Z (Z.of_nat n) <= inject_Z (Z.of_nat m))%Q.
Proof. intros. rewrite <- Zle_Qle. lia. Qed.

Lemma inject_nat_pos (n : nat) : (0 < n)%nat → (0 < inject_Z (Z.of_nat n))%Q.
Proof. intros. change 0%Q with (inject_Z 0). rewrite <- Zlt_Qlt. lia. Qed.

(** [round(x, 2)] keeps a percentage within its range. *)
Lemma round2_range (x : Q) : (0 <= x)%Q → (x <= 100)%Q → (0 <= round2 x)%Q ∧ (round2 x <= 100)%Q.
Proof.
  intros H0 H100. unfold round2.
  set (y := (x * 100)%Q). set (n := Qfloor y).
  assert (Hy0 : (0 <= y)%Q) by (unfold y; lra).
  assert (Hy : (y <= 10000)%Q) by (unfold y; lra).
  assert (Hn0 : (0 <= n)%Z).
  { unfold n. change 0%Z with (Qfloor 0). by apply Qfloor_resp_le. }
  assert (Hn : (n <= 10000)%Z).
  { unfold n. change 10000%Z with (Qfloor 10000). by apply Qfloor_resp_le. }
  assert (Hfl : (inject_Z n <= y)%Q) by apply Qfloor_le.
  assert (Hm : ∀ m : Z, (0 <= m <= 10000)%Z → (0 <= m # 100)%Q ∧ (m # 100 <= 100)%Q).
  { intros m [? ?]. unfold Qle; simpl. lia. }
  assert (Hn1 : (0 < y - inject_Z n)%Q → (n + 1 <= 10000)%Z).
  { intros Hr. destruct (decide (n = 10000%Z)) as [E|]; [|lia].
    exfalso. rewrite E in Hr. change (inject_Z 10000) with 10000%Q in Hr. lra. }
  destruct (Qltb (y - inject_Z n) (1 # 2)) eqn:E1; [apply Hm; lia|].
  apply Qltb_ge in E1.
  assert (Hpos : (0 < y - inject_Z n)%Q) by lra.
  destruct (Qltb (1 # 2) (y - inject_Z n)); [apply Hm; specialize (Hn1 Hpos); lia|].
  destruct (Z.even n); apply Hm; specialize (Hn1 Hpos); lia.
Qed.

End ScoreFacts.

(** ** Strings *)

Module StrFacts.

Import Spec.

Lemma startswith_prefix (x y : pystr) : startswith x y = true ↔ ∃ post, y = x ++ post.
Proof.
  revert y. induction x as [|a x IH]; intros y; simpl.
  - split; [eauto | done].
  - destruct y as [|b y].
    + split; [done | by intros [post ?]].
    + rewrite andb_true_iff, N.eqb_eq, IH. split.
      * intros [-> [post ->]]. by exists post.
      * intros [post [= -> ->]]. eauto.
Qed.

Lemma str_in_substring (x y : pystr) : str_in x y = true ↔ substring x y.
Proof.
  unfold substring. induction y as [|b y IH]; simpl.
  - rewrite orb_false_r, startswith_prefix. split.
    + intros [post ->]. by exists [], post.
    + intros [pre [post H]]. destruct pre; [by exists post|done].
  - rewrite orb_true_iff, startswith_prefix, IH. split.
    + intros [[post ->] | [pre [post ->]]].
      * by exists [], post.
      * by exists (b :: pre), post.
    + intros [[|c pre] [post H]].
      * left. by exists post.
      * right. injection H as -> ->. by exists pre, post.
Qed.

Lemma str_mem_elem (x : pystr) (l : list pystr) : str_mem x l = true ↔ x ∈ l.
Proof. unfold str_mem. apply bool_decide_eq_true. Qed.

End StrFacts.

(** ** The compatibility scorer *)

Module MatchServiceFacts.

Import SkillMapper MatchService Spec Aux ScoreFacts StrFacts.

(** *** Gap analysis *)

Lemma gap_step_elem (R : list pystr) (acc : list pystr) (j x : pystr) :
  x ∈ gap_step R acc j → x ∈ acc ∨ x = j.
Proof.
  unfold gap_step. destruct (existsb _ R); [|auto].
  destruct (str_mem j acc); [auto|].
  rewrite elem_of_app, list_elem_of_singleton. tauto.
Qed.

Lemma gap_fold_elem (R J : list pystr) : ∀ acc x,
  x ∈ fold_left (gap_step R) J acc → x ∈ acc ∨ x ∈ J.
Proof.
  induction J as [|j J IH]; intros acc x; simpl; [auto|].
  intros H. apply IH in H as [H|H].
  - apply gap_step_elem in H as [H| ->]; [auto | right; left].
  - right. by right.
Qed.

(** C3. The matching and the missing skills of [_identify_skill_gaps] are
    disjoint as sets, together they are exactly the job's skills, and so each
    holds job skills only. *)
Theorem identify_skill_gaps_partition (resume_skills job_skills : list pystr) :
  let '(matching_skills, missing_skills) := _identify_skill_gaps resume_skills job_skills in
  (list_to_set matching_skills ∩ list_to_set missing_skills = (∅ : gset pystr))
  ∧ (list_to_set matching_skills ∪ list_to_set missing_skills
     = (list_to_set job_skills : gset pystr))
  ∧ matching_skills ⊆ job_skills
  ∧ missing_skills ⊆ job_skills.
Proof.
  unfold _identify_skill_gaps.
  set (matching := fold_left (gap_step resume_skills) job_skills []).
  assert (Hsub : matching ⊆ job_skills).
  { intros x Hx. apply gap_fold_elem in Hx as [Hx|Hx]; [|done]. by apply elem_of_nil in Hx. }
  set (missing := filter (λ j, negb (str_mem j matching)) job_skills).
  assert (Hmiss : ∀ x, x ∈ missing ↔ (x ∉ matching) ∧ x ∈ job_skills).
  { intros x. unfold missing. rewrite list_elem_of_filter. unfold str_mem.
    rewrite negb_True, bool_decide_spec. tauto. }
  repeat split.
  - apply set_eq. intros x.
    rewrite elem_of_intersection, !elem_of_list_to_set, Hmiss.
    split; [tauto | set_solver].
  - apply set_eq. intros x.
    rewrite elem_of_union, !elem_of_list_to_set, Hmiss.
    split; [intros [?|[_ ?]]; auto |].
    intros Hx. destruct (decide (x ∈ matching)); auto.
  - done.
  - intros x Hx. by apply Hmiss in Hx as [_ ?].
Qed.

(** *** The skills sub-score *)



(** The count is determined by the lists. *)
Lemma count_matching_unique (P : pystr → Prop) (l : list pystr) (n m : nat) :
  count_matching P l n → count_matching P l m → n = m.
Proof.
  intros Hn. revert m. induction Hn as [|x l n Hx Hn IH|x l n Hx Hn IH];
    intros m Hm; inversion Hm; subst; try done; auto.
Qed.

Lemma qlen_map {A B} (f : A → B) (l : list A) : qlen (map f l) = qlen l.
Proof. unfold qlen. by rewrite length_map. Qed.

Lemma qlen_pos {A} (x : A) (l : list A) : (0 < qlen (x :: l))%Q.
Proof. apply inject_nat_pos. simpl. lia. Qed.

Lemma surplus_bonus_range (R J : list pystr) :
  J ≠ [] → (0 <= surplus_bonus R J)%Q ∧ (surplus_bonus R J <= 15 # 100)%Q.
Proof.
  intros HJ. unfold surplus_bonus.
  destruct (length J <? length R)%nat eqn:E; [|split; by unfold Qle].
  apply Nat.ltb_lt in E. split; [|apply Q.le_min_l].
  apply Q.min_glb; [by unfold Qle|].
  destruct J as [|j J]; [done|].
  apply Qmult_le_0_compat; [|by unfold Qle].
  apply Qdiv_nonneg; [|apply qlen_pos].
  assert (qlen (j :: J) <= qlen R)%Q by (apply inject_nat_le; lia). lra.
Qed.

Lemma matched_ratio_range (R J : list pystr) (j : pystr) :
  (0 <= qlen (matched R (j :: J)) / qlen (j :: J))%Q
  ∧ (qlen (matched R (j :: J)) / qlen (j :: J) <= 1)%Q.
Proof.
  split.
  - apply Qdiv_nonneg; [|apply qlen_pos].
    change 0%Q with (inject_Z (Z.of_nat 0)). apply inject_nat_le. lia.
  - apply Qdiv_le_1; [apply qlen_pos|].
    apply inject_nat_le. unfold matched.
    etrans; [apply length_filter|]. by rewrite length_map.
Qed.

(** The value of [_calculate_skills_match] when both lists hold skills. *)
Lemma skills_match_value (r j : pystr) (R J : list pystr) :
  (_calculate_skills_match (r :: R) (j :: J)
   == Qmin 1 (qlen (matched (r :: R) (j :: J)) / qlen (j :: J)
              + surplus_bonus (r :: R) (j :: J)))%Q.
Proof.
  unfold _calculate_skills_match, surplus_bonus.
  rewrite !length_map, !qlen_map.
  fold (matched (r :: R) (j :: J)).
  destruct (matched_ratio_range (r :: R) J j) as [H0 H1].
  destruct (length (j :: J) <? length (r :: R))%nat.
  - rewrite !pymin_Qmin. reflexivity.
  - rewrite Qplus_0_r. symmetry. by apply Q.min_r.
Qed.


(** *** Monotonicity of the skills sub-score *)

Lemma skill_matches_more (R : list pystr) (s skill : pystr) :
  skill_matches R skill = true → skill_matches (R ++ [s]) skill = true.
Proof.
  unfold skill_matches. rewrite !existsb_exists.
  intros [x [Hx H]]. exists x. split; [|done]. apply in_or_app. by left.
Qed.

Lemma filter_length_mono {A} (P Q : A → bool) (l : list A) :
  (∀ x, P x = true → Q x = true) →
  (length (filter (λ x, P x) l) ≤ length (filter (λ x, Q x) l))%nat.
Proof.
  intros HPQ. induction l as [|x l IH]; [done|].
  rewrite !filter_cons.
  destruct (decide (P x)) as [HP|HP]; destruct (decide (Q x)) as [HQ|HQ]; simpl; try lia.
  exfalso. apply HQ, Is_true_true, HPQ. by apply Is_true_true.
Qed.

Lemma skills_match_nonneg (R J : list pystr) : (0 <= _calculate_skills_match R J)%Q.
Proof.
  destruct J as [|j J]; [by unfold Qle|].
  destruct R as [|r R]; [by unfold Qle|].
  rewrite skills_match_value.
  destruct (matched_ratio_range (r :: R) J j) as [H0 _].
  destruct (surplus_bonus_range (r :: R) (j :: J)) as [Hb _]; [done|].
  apply Q.min_glb; [by unfold Qle | lra].
Qed.

Lemma skills_match_le_1 (R J : list pystr) : (_calculate_skills_match R J <= 1)%Q.
Proof.
  destruct J as [|j J]; [by unfold Qle|].
  destruct R as [|r R]; [by unfold Qle|].
  rewrite skills_match_value. apply Q.le_min_l.
Qed.

Lemma surplus_bonus_mono (R J : list pystr) (s : pystr) :
  J ≠ [] → (surplus_bonus R J <= surplus_bonus (R ++ [s]) J)%Q.
Proof.
  intros HJ. unfold surplus_bonus at 1.
  destruct (length J <? length R)%nat eqn:E.
  - apply Nat.ltb_lt in E. unfold surplus_bonus.
    assert (E' : (length J <? length (R ++ [s]))%nat = true).
    { apply Nat.ltb_lt. rewrite length_app. simpl. lia. }
    rewrite E'. apply Q.min_le_compat_l.
    destruct J as [|j J]; [done|].
    apply Qmult_le_compat_r; [|by unfold Qle].
    apply Qdiv_le_mono; [apply qlen_pos|].
    assert (qlen R <= qlen (R ++ [s]))%Q.
    { apply inject_nat_le. rewrite length_app. lia. }
    lra.
  - by apply surplus_bonus_range.
Qed.

(** Adding any skill to the résumé never lowers the skills sub-score. *)
Lemma skills_match_append (R J : list pystr) (s : pystr) :
  (_calculate_skills_match R J <= _calculate_skills_match (R ++ [s]) J)%Q.
Proof.
  destruct J as [|j J]; [destruct R; by unfold Qle|].
  destruct R as [|r R]; [apply skills_match_nonneg|].
  change ((r :: R) ++ [s]) with (r :: (R ++ [s])).
  rewrite !skills_match_value.
  change (r :: (R ++ [s])) with ((r :: R) ++ [s]).
  apply Q.min_le_compat_l.
  apply Qplus_le_compat; [|by apply surplus_bonus_mono].
  apply Qdiv_le_mono; [apply qlen_pos|].
  apply inject_nat_le. unfold matched.
  apply filter_length_mono. intros x.
  rewrite map_app. apply skill_matches_more.
Qed.

(** C5. Appending to the résumé a skill drawn from the job's list never
    lowers the value of [_calculate_skills_match]. *)
Theorem skills_match_monotone (resume_skills job_skills : list pystr) (s : pystr) :
  s ∈ job_skills →
  (_calculate_skills_match resume_skills job_skills
   <= _calculate_skills_match (resume_skills ++ [s]) job_skills)%Q.
Proof. intros _. apply skills_match_append. Qed.

Lemma skills_match_monotone_witness :
  py "Django" ∈ [py "Python"; py "Django"; py "SQL"]
  ∧ (_calculate_skills_match [py "Python"; py "SQL"] [py "Python"; py "Django"; py "SQL"]
     <= _calculate_skills_match ([py "Python"; py "SQL"] ++ [py "Django"])
          [py "Python"; py "Django"; py "SQL"])%Q.
Proof.
  assert (H : py "Django" ∈ [py "Python"; py "Django"; py "SQL"]).
  { rewrite !elem_of_cons. right; left. reflexivity. }
  split; [exact H|].
  exact (skills_match_monotone [py "Python"; py "SQL"]
           [py "Python"; py "Django"; py "SQL"] (py "Django") H).
Defined.

(** *** The education sub-score *)

Lemma no_education_keyword_spec (reqs : list pystr) :
  no_education_keyword reqs
  ↔ forallb (λ req, negb (mentions_education (lower req))) reqs = true.
Proof.
  unfold no_education_keyword, mentions_education.
  rewrite forallb_forall. split.
  - intros H req Hreq. apply negb_true_iff.
    destruct (existsb _ education_terms) eqn:E; [|done].
    apply existsb_exists in E as [term [Hterm Hin]].
    exfalso. apply (H req term); [by apply list_elem_of_In..|].
    by apply str_in_substring.
  - intros H req term Hreq Hterm Hsub.
    specialize (H req (proj1 (list_elem_of_In _ _) Hreq)).
    apply negb_true_iff in H.
    assert (existsb (λ term, str_in term (lower req)) education_terms = true); [|congruence].
    apply existsb_exists. exists term. split; [by apply list_elem_of_In|].
    by apply str_in_substring.
Qed.

Lemma education_requirement_none (reqs : list pystr) :
  no_education_keyword reqs → education_requirement reqs = None.
Proof.
  rewrite no_education_keyword_spec.
  induction reqs as [|req reqs IH]; [done|].
  simpl. intros H. apply andb_true_iff in H as [H1 H2].
  apply negb_true_iff in H1. rewrite H1. by apply IH.
Qed.

(** With no education entry the sub-score is 0, whatever the job asks. *)
Lemma education_match_no_entry (j : job) :
  _calculate_education_match (Some []) j = inr 0%Q.
Proof. reflexivity. Qed.

(** C7, as the code has it. When no requirement of the job mentions an
    education keyword, [_calculate_education_match] returns 1.0 for every
    non-empty list of education entries. *)
Theorem education_match_without_keyword (edu : education) (entries : list education)
    (j : job) (reqs : list pystr) :
  get_default (job_requirements j) [] = Some reqs →
  no_education_keyword reqs →
  _calculate_education_match (Some (edu :: entries)) j = inr 1%Q.
Proof.
  intros Hreqs Hno. unfold _calculate_education_match.
  rewrite Hreqs. by rewrite (education_requirement_none reqs Hno).
Qed.

Lemma education_match_without_keyword_witness :
  _calculate_education_match (Some [Examples.bachelor]) Examples.backend_job = inr 1%Q.
Proof.
  apply (education_match_without_keyword Examples.bachelor [] Examples.backend_job
           [py "Experiência com Python"; py "Conhecimento em SQL"]).
  - reflexivity.
  - apply no_education_keyword_spec. vm_compute. reflexivity.
Defined.

(** C7, as stated, fails on an empty education list: the job's requirements
    mention no education keyword and the sub-score is 0, not 1. *)
Lemma education_match_empty_list_counterexample :
  no_education_keyword [py "Experiência com Python"; py "Conhecimento em SQL"]
  ∧ get_default (job_requirements Examples.backend_job) []
    = Some [py "Experiência com Python"; py "Conhecimento em SQL"]
  ∧ _calculate_education_match (Some []) Examples.backend_job = inr 0%Q
  ∧ ¬ (0 == 1)%Q.
Proof.
  split; [apply no_education_keyword_spec; vm_compute; reflexivity|].
  repeat split. discriminate.
Qed.

(** *** The experience sub-score *)

Section ExperienceFacts.
  Variable fromisoformat : pystr → option (Z * Z).
  Variable now : pystr.

  (** An entry without a start date, or with an empty one, is skipped. *)
Lemma experience_step_skipped (j : job) (acc : Z * Z) (exp : experience) :
    falsy_str (get (exp_start_date exp)) = true →
    experience_step fromisoformat now j acc exp = inr acc.
  Proof.
    unfold experience_step. destruct acc as [total relevant].
    destruct (get (exp_start_date exp)) as [[|c s]|]; done.
  Qed.

  (** C8, as the code has it. An experience entry whose dates do not both
      parse adds exactly 12 months to the total when its start date is a
      non-empty string (its end date being absent or a string), and nothing
      when its start date is absent or empty: such an entry is skipped. *)
Theorem unparseable_entry_months (j : job) (total_months relevant : Z)
      (exp : experience) :
    entry_dates fromisoformat now exp = None →
    exp_end_date exp ≠ Null →
    experience_step fromisoformat now j (total_months, relevant) exp
    = inr ((total_months
            + (if falsy_str (get (exp_start_date exp)) then 0 else 12))%Z, relevant).
  Proof.
    unfold entry_dates, experience_step. intros Hdates Hend.
    destruct (get (exp_start_date exp)) as [[|c s]|]; simpl in *;
      [by rewrite Z.add_0_r | | by rewrite Z.add_0_r].
    destruct (parse_date fromisoformat (c :: s)) as [[sy sm]|]; simpl in *; [|done].
    destruct (exp_end_date exp) as [| |e]; simpl in *; [| done |].
    - by destruct (parse_date fromisoformat now) as [[ey em]|].
    - by destruct (parse_date fromisoformat e) as [[ey em]|].
  Qed.

  (** An entry with two dates that parse adds the months between them. *)
Lemma parseable_entry_months (j : job) (total_months relevant : Z) (exp : experience)
      (sy sm ey em : Z) (exp_title_s job_title_s : pystr) :
    entry_dates fromisoformat now exp = Some ((sy, sm), (ey, em)) →
    falsy_str (get (exp_start_date exp)) = false →
    get_default (exp_title exp) [] = Some exp_title_s →
    get_default (job_title j) [] = Some job_title_s →
    ∃ relevant',
      experience_step fromisoformat now j (total_months, relevant) exp
      = inr ((total_months + ((ey - sy) * 12 + (em - sm)))%Z, relevant').
  Proof.
    unfold entry_dates, experience_step. intros Hdates Hstart Ht Hj.
    destruct (get (exp_start_date exp)) as [[|c s]|]; simpl in *; try done.
    destruct (parse_date fromisoformat (c :: s)) as [[sy' sm']|]; simpl in *; [|done].
    destruct (get_default (exp_end_date exp) now) as [e|]; simpl in *; [|done].
    destruct (parse_date fromisoformat e) as [[ey' em']|]; simpl in *; [|done].
    injection Hdates as -> -> -> ->. rewrite Ht, Hj. simpl.
    destruct (_ || _); eauto.
  Qed.
End ExperienceFacts.

Lemma unparseable_entry_months_witness :
  experience_step Datetime.fromisoformat Examples.clock Examples.backend_job (24, 0)%Z
    Examples.current_position
  = inr (36, 0)%Z.
Proof.
  apply (unparseable_entry_months Datetime.fromisoformat Examples.clock
           Examples.backend_job 24 0 Examples.current_position).
  - vm_compute. reflexivity.
  - discriminate.
Defined.

(** C8, as stated, fails on entries whose start date is absent or empty:
    their dates cannot be parsed and they add nothing to the total. *)
Lemma unparseable_entry_counterexample :
  entry_dates Datetime.fromisoformat Examples.clock Examples.blank_start_position = None
  ∧ months_added Datetime.fromisoformat Examples.clock Examples.backend_job
      Examples.blank_start_position = Some 0%Z
  ∧ entry_dates Datetime.fromisoformat Examples.clock Examples.undated_position = None
  ∧ months_added Datetime.fromisoformat Examples.clock Examples.backend_job
      Examples.undated_position = Some 0%Z.
Proof. repeat split. Qed.

(** *** The title sub-score *)

Lemma title_words_nil : title_words [] = ∅.
Proof. apply set_eq. intros x. unfold title_words. simpl. set_solver. Qed.

(** C10. [_calculate_job_title_match] returns exactly 0.5 whenever either
    title is missing or empty, or either word set is empty once stop words
    are removed. *)
Theorem job_title_match_neutral (resume_title job_title : option pystr) :
  falsy_str resume_title = true ∨ falsy_str job_title = true
  ∨ words_of resume_title = ∅ ∨ words_of job_title = ∅ →
  _calculate_job_title_match resume_title job_title = 1 # 2.
Proof.
  intros H. unfold _calculate_job_title_match.
  destruct resume_title as [[|r rt]|], job_title as [[|j jt]|]; try reflexivity.
  simpl in H. destruct H as [H|[H|[H|H]]]; try discriminate.
  - by rewrite (bool_decide_eq_true_2 _ H).
  - rewrite (bool_decide_eq_true_2 _ H). by rewrite orb_true_r.
Qed.

Lemma job_title_match_neutral_witness :
  _calculate_job_title_match (Some (py "de para com")) (Some (py "Engenheiro de Dados"))
  = 1 # 2.
Proof.
  apply job_title_match_neutral.
  right; right; left. apply (bool_decide_unpack _). vm_compute. exact I.
Defined.

(** The Jaccard similarity is the value only when both word sets are
    non-empty; it is then raised by 0.3, capped at 1, on a direct match. *)
Lemma job_title_match_jaccard (resume_title job_title : option pystr) :
  words_of resume_title ≠ ∅ → words_of job_title ≠ ∅ →
  _calculate_job_title_match resume_title job_title
  = jaccard (words_of resume_title) (words_of job_title)
  ∨ _calculate_job_title_match resume_title job_title
    = pymin 1 (jaccard (words_of resume_title) (words_of job_title) + (3 # 10))%Q.
Proof.
  intros Hr Hj. unfold _calculate_job_title_match.
  destruct resume_title as [[|r rt]|], job_title as [[|j jt]|]; simpl in *;
    try (by rewrite ?title_words_nil in *).
  rewrite (bool_decide_eq_false_2 _ Hr), (bool_decide_eq_false_2 _ Hj). simpl.
  destruct (existsb _ _); [by right | by left].
Qed.

(** *** Ranges of the sub-scores *)

Lemma unit_range_0 : unit_range 0.
Proof. split; by unfold Qle. Qed.

Lemma unit_range_1 : unit_range 1.
Proof. split; by unfold Qle. Qed.

Lemma unit_range_capped (x b : Q) :
  unit_range x → (0 <= b)%Q → unit_range (pymin 1 (x + b)).
Proof.
  intros [H0 H1] Hb. split; [|apply pymin_le_l].
  apply pymin_glb; [by unfold Qle | lra].
Qed.

Lemma unit_range_floored (x b : Q) :
  (x <= 1)%Q → (0 <= b)%Q → unit_range (pymax 0 (x - b)).
Proof.
  intros H1 Hb. split; [apply pymax_ge_l|].
  apply pymax_lub; [by unfold Qle | lra].
Qed.

Lemma level_gap_range (gap : Z) (step : Q) :
  (0 <= gap)%Z → (0 <= step)%Q → unit_range (pymax 0 (1 - inject_Z gap * step)).
Proof.
  intros Hg Hs. apply unit_range_floored; [apply Qle_refl|].
  apply Qmult_le_0_compat; [|done].
  change 0%Q with (inject_Z 0). by rewrite <- Zle_Qle.
Qed.

Lemma skills_match_range (R J : list pystr) : unit_range (_calculate_skills_match R J).
Proof. split; [apply skills_match_nonneg | apply skills_match_le_1]. Qed.

Lemma bind_inr {A B} (m : exn + A) (f : A → exn + B) (b : B) :
  m ≫= f = inr b → ∃ a, m = inr a ∧ f a = inr b.
Proof. destruct m as [e|a]; [done|]. intros H. by exists a. Qed.

Lemma experience_match_range fromisoformat now (entries : option (list experience))
    (j : job) (q : Q) :
  _calculate_experience_match fromisoformat now entries j = inr q → unit_range q.
Proof.
  unfold _calculate_experience_match.
  destruct entries as [[|e entries]|]; try (intros [= <-]; apply unit_range_0).
  intros H. apply bind_inr in H as (level & _ & H).
  apply bind_inr in H as ([total relevant] & _ & H).
  set (required := default 0%Z (first_key_in level experience_levels)) in H.
  assert (Hscore : unit_range
            (if (required <=? candidate_level_of total)%Z then 1%Q
             else pymax 0 (1 - inject_Z (required - candidate_level_of total)
                                * (25 # 100))%Q)).
  { destruct (_ <=? _)%Z eqn:E; [apply unit_range_1|].
    apply Z.leb_gt in E. apply level_gap_range; [lia | by unfold Qle]. }
  destruct (0 <? relevant)%Z eqn:Er; injection H as <-; [|done].
  apply unit_range_capped; [done|].
  apply Z.ltb_lt in Er. apply pymin_glb; [by unfold Qle|].
  apply Qmult_le_0_compat; [|by unfold Qle].
  apply Qdiv_nonneg; [|reflexivity].
  change 0%Q with (inject_Z 0). rewrite <- Zle_Qle. lia.
Qed.

Lemma education_match_range (entries : option (list education)) (j : job) (q : Q) :
  _calculate_education_match entries j = inr q → unit_range q.
Proof.
  unfold _calculate_education_match.
  destruct entries as [[|e entries]|]; try (intros [= <-]; apply unit_range_0).
  destruct (get_default _ _) as [reqs|]; [|done].
  destruct (education_requirement reqs) as [[degree field]|];
    [|intros [= <-]; apply unit_range_1].
  set (required := match degree with
                   | Some (c :: d) => default 3%Z (first_key_containing (c :: d) degree_levels)
                   | _ => 3%Z
                   end).
  intros H. apply bind_inr in H as ([level fm] & _ & H).
  assert (Hlevel : unit_range
            (if (required <=? level)%Z then 1%Q
             else pymax 0 (1 - inject_Z (required - level) * (3 # 10))%Q)).
  { destruct (_ <=? _)%Z eqn:E; [apply unit_range_1|].
    apply Z.leb_gt in E. apply level_gap_range; [lia | by unfold Qle]. }
  injection H as <-. destruct field as [[|c f]|]; try done.
  destruct fm.
  - apply unit_range_capped; [done | by unfold Qle].
  - apply unit_range_floored; [apply Hlevel | by unfold Qle].
Qed.

Lemma jaccard_range (a b : gset pystr) : a ≠ ∅ → unit_range (jaccard a b).
Proof.
  intros Ha. unfold jaccard.
  assert (Hpos : (0 < size (a ∪ b))%nat).
  { assert (size a ≠ 0%nat).
    { apply size_non_empty_iff. intros Hequiv. apply Ha. by apply leibniz_equiv. }
    assert (size a ≤ size (a ∪ b))%nat by (apply subseteq_size; set_solver). lia. }
  split.
  - apply Qdiv_nonneg; [|by apply inject_nat_pos].
    change 0%Q with (inject_Z (Z.of_nat 0)). apply inject_nat_le. lia.
  - apply Qdiv_le_1; [by apply inject_nat_pos|].
    apply inject_nat_le, subseteq_size.
    intros x. rewrite elem_of_intersection, elem_of_union. tauto.
Qed.

Lemma job_title_match_range (resume_title job_title : option pystr) :
  unit_range (_calculate_job_title_match resume_title job_title).
Proof.
  assert (Hhalf : unit_range (1 # 2)) by (split; by unfold Qle).
  unfold _calculate_job_title_match.
  destruct resume_title as [[|r rt]|], job_title as [[|j jt]|]; try done.
  destruct (bool_decide (title_words (r :: rt) = ∅)) eqn:Er; [done|].
  destruct (bool_decide (title_words (j :: jt) = ∅)) eqn:Ej; [done|]. simpl.
  apply bool_decide_eq_false in Er.
  pose proof (jaccard_range _ (title_words (j :: jt)) Er) as Hj.
  unfold jaccard in Hj.
  destruct (existsb _ _); [|done].
  apply unit_range_capped; [done | by unfold Qle].
Qed.

Lemma percent_in_range (q : Q) :
  unit_range q → (0 <= round2 (q * 100))%Q ∧ (round2 (q * 100) <= 100)%Q.
Proof. intros [H0 H1]. apply round2_range; lra. Qed.

(** *** The record returned by [calculate_match] *)

Section ServiceFacts.
  Variable skill_mapper : SkillMapper.t.
  Variable fromisoformat : pystr → option (Z * Z).
  Variable now : pystr.

  (** The internal algorithm, when nothing raises, returns a complete record
      with every score within range. *)
Lemma internal_match_valid (resume_data : resume) (job_data : job)
      (r : gmap string pyval) :
    internal_match skill_mapper fromisoformat now resume_data job_data = inr r →
    overall_in_range r ∧ details_in_range r ∧ complete_record r.
  Proof.
    unfold internal_match. intros H.
    apply bind_inr in H as (xp & Exp & H).
    apply bind_inr in H as (ed & Eed & H).
    destruct (_identify_skill_gaps _ _) as [matching missing].
    injection H as <-.
    pose proof (experience_match_range _ _ _ _ _ Exp) as Hxp.
    pose proof (education_match_range _ _ _ Eed) as Hed.
    split; [|split].
    - eexists. split; [by rewrite lookup_insert_eq|].
      apply round2_range; [apply pymin_glb; [by unfold Qle | apply pymax_ge_l]
                          | apply pymin_le_l].
    - intros v Hv. rewrite lookup_insert_ne, lookup_insert_eq in Hv by done.
      injection Hv as <-. eexists. split; [done|].
      intros k x Hk.
      repeat (apply lookup_insert_Some in Hk as [[_ <-]|[_ Hk]];
              [eexists; split; [done|]; apply percent_in_range;
               first [apply skills_match_range | done | apply job_title_match_range]|]).
      by rewrite lookup_empty in Hk.
    - eexists. split; [by rewrite lookup_insert_ne, lookup_insert_eq by done|].
      intros k Hk. unfold factors in Hk.
      repeat (apply elem_of_cons in Hk as [->|Hk];
              [by rewrite ?lookup_insert_ne, lookup_insert_eq by done|]).
      by apply elem_of_nil in Hk.
  Qed.

  (** Whatever happens inside, the internal path returns a record in range:
      complete, or, when the internal algorithm raises, degraded with a zero
      score and the error. *)
Lemma internal_result_valid (resume_data : resume) (job_data : job) :
    let r := internal_result skill_mapper fromisoformat now resume_data job_data in
    overall_in_range r ∧ details_in_range r
    ∧ match internal_match skill_mapper fromisoformat now resume_data job_data with
      | inr _ => complete_record r
      | inl e => error_record r ∧ r !! "error" = Some (VStr (str_of_exn e))
      end.
  Proof.
    unfold internal_result.
    destruct (internal_match _ _ _ _ _) as [e|r] eqn:E.
    - split; [|split].
      + exists 0%Q. split; [by rewrite lookup_insert_eq | split; by unfold Qle].
      + intros v Hv. by rewrite !lookup_insert_ne, lookup_empty in Hv.
      + unfold error_record.
        rewrite lookup_insert_eq, lookup_insert_ne, lookup_insert_eq by done. eauto.
    - by apply internal_match_valid in E as (? & ? & ?).
  Qed.
(** The gap analysis placed in the record is that of [_identify_skill_gaps]
    on the canonical technical and soft skills of the two sides. *)
Lemma internal_match_gaps (resume_data : resume) (job_data : job)
    (r : gmap string pyval) :
  internal_match skill_mapper fromisoformat now resume_data job_data = inr r →
  let mapped_resume := normalize_skills skill_mapper (skills_of (resume_skills resume_data)) in
  let mapped_job := normalize_skills skill_mapper (skills_of (job_skills job_data)) in
  let gaps :=
    _identify_skill_gaps
      (category_of mapped_resume "technical" ++ category_of mapped_resume "soft")
      (category_of mapped_job "technical" ++ category_of mapped_job "soft") in
  r !! "matching_skills" = Some (strings gaps.1)
  ∧ r !! "missing_skills" = Some (strings gaps.2).
Proof.
  unfold internal_match. intros H.
  apply bind_inr in H as (xp & _ & H).
  apply bind_inr in H as (ed & _ & H). cbv zeta.
  destruct (_identify_skill_gaps _ _) as [matching missing].
  injection H as <-. split.
  - by rewrite 2!lookup_insert_ne, lookup_insert_eq by done.
  - by rewrite 3!lookup_insert_ne, lookup_insert_eq by done.
Qed.

(** A job without stated skills: the technical sub-score is 100 and no skill
    is missing. *)
Lemma internal_match_no_job_skills (resume_data : resume) (job_data : job)
    (r : gmap string pyval) :
  skills_of (job_skills job_data) = SkillsList [] →
  internal_match skill_mapper fromisoformat now resume_data job_data = inr r →
  (∃ d q, r !! "score_details" = Some (VDict d)
          ∧ d !! "technical_skills" = Some (number q) ∧ (q == 100)%Q)
  ∧ r !! "missing_skills" = Some (strings []).
Proof.
  intros Hjob H. pose proof (internal_match_gaps _ _ _ H) as [_ Hmissing].
  revert H Hmissing. unfold internal_match. rewrite Hjob. intros H Hmissing.
  apply bind_inr in H as (xp & _ & H).
  apply bind_inr in H as (ed & _ & H).
  split; [|exact Hmissing].
  destruct (_identify_skill_gaps _ _) as [matching missing].
  injection H as <-. do 2 eexists.
  split; [by rewrite lookup_insert_ne, lookup_insert_eq by done|].
  split; [by rewrite lookup_insert_eq|]. reflexivity.
Qed.
End ServiceFacts.

End MatchServiceFacts.

(** ** The delegate's score normalisation *)

Module ClaudeServiceFacts.

Import MatchService ClaudeService Spec ScoreFacts.

(** Whatever number the delegate reports, normalised it is a finite number
    of [0, 100]: a share is rescaled, anything else is clamped, and [NaN] and
    the infinities end on a bound. *)
Lemma normalize_score_range (score : pynum) :
  ∃ q, normalize_score score = Fin q ∧ (0 <= q)%Q ∧ (q <= 100)%Q.
Proof.
  destruct score as [a| | |]; unfold normalize_score; simpl;
    try (eexists; split; [reflexivity | split; by unfold Qle]).
  destruct (Qltb 1 a && Qle_bool a 100) eqn:E1.
  - apply andb_true_iff in E1 as [H1 H2].
    apply Qltb_lt in H1. apply Qle_bool_iff in H2.
    exists a. split; [done | split; lra].
  - destruct (Qle_bool 0 a && Qle_bool a 1) eqn:E2.
    + apply andb_true_iff in E2 as [H1 H2].
      apply Qle_bool_iff in H1. apply Qle_bool_iff in H2.
      exists (a * 100)%Q. split; [done | split; lra].
    + unfold num_min, num_max. simpl.
      destruct (Qltb a 100) eqn:E3; simpl.
      * apply Qltb_lt in E3. destruct (Qltb 0 a) eqn:E4.
        -- apply Qltb_lt in E4. exists a. split; [done | split; lra].
        -- exists 0%Q. split; [done | split; by unfold Qle].
      * exists 100%Q. split; [done | split; by unfold Qle].
Qed.

(** The record of [ClaudeService.calculate_match] carries a normalised
    [score_overall] and, untouched, every other key of the answer. *)
Lemma delegate_record answer float_of_str (resume_data : resume) (job_data : job)
    (d : gmap string pyval) :
  calculate_match answer float_of_str resume_data job_data = inr d →
  overall_in_range d
  ∧ ∃ result, answer resume_data job_data = inr result
              ∧ ∀ k, k ≠ "score_overall" → d !! k = result !! k.
Proof.
  unfold calculate_match. intros H.
  destruct (answer resume_data job_data) as [e|result]; [done|]. simpl in H.
  destruct (result !! "score_overall") as [v|].
  - destruct (float float_of_str v) as [e|score]; [done|]. injection H as <-.
    split.
    + destruct (normalize_score_range score) as (q & Hq & ?).
      exists q. by rewrite lookup_insert_eq, Hq.
    + exists result. split; [done|]. intros k Hk. by rewrite lookup_insert_ne.
  - injection H as <-. split.
    + exists 0%Q. rewrite lookup_insert_eq. repeat split; by unfold Qle.
    + exists result. split; [done|]. intros k Hk. by rewrite lookup_insert_ne.
Qed.

End ClaudeServiceFacts.

(** ** [calculate_match]: the two paths *)

Module DelegationFacts.

Import SkillMapper MatchService Spec Aux ScoreFacts MatchServiceFacts ClaudeServiceFacts.

(** C2, as the code has it. [calculate_match] always returns a record (the
    function is total: no exception reaches the caller). When the delegate
    is asked and answers, the record is the delegate's, stamped with
    [created_at] and otherwise unchecked. In every other case the record is
    the internal one: [score_overall] and every value of [score_details] are
    finite numbers of [0, 100], and the record is either complete or, after
    an internal failure, the degraded one with [score_overall = 0] and
    [error] set. With the repository's own delegate, [score_overall] is a
    finite number of [0, 100] on both paths. *)
Theorem calculate_match_record (skill_mapper : SkillMapper.t)
    (fromisoformat : pystr → option (Z * Z)) (now : pystr)
    (resume_data : resume) (job_data : job) (use_claude : bool) :
  (∀ claude,
     let r := calculate_match skill_mapper claude fromisoformat now
                resume_data job_data use_claude in
     (∃ d, use_claude = true ∧ claude resume_data job_data = inr d
           ∧ r = <["created_at" := VStr now]> d)
     ∨ (overall_in_range r ∧ details_in_range r
        ∧ match internal_match skill_mapper fromisoformat now resume_data job_data with
          | inr _ => complete_record r
          | inl e => error_record r ∧ r !! "error" = Some (VStr (str_of_exn e))
          end))
  ∧ (∀ answer float_of_str,
       overall_in_range
         (calculate_match skill_mapper (ClaudeService.calculate_match answer float_of_str)
            fromisoformat now resume_data job_data use_claude)).
Proof.
  split.
  - intros claude. unfold calculate_match.
    destruct use_claude; [|right; apply internal_result_valid].
    destruct (claude resume_data job_data) as [e|d];
      [right; apply internal_result_valid|].
    left. by exists d.
  - intros answer float_of_str. unfold calculate_match.
    destruct use_claude; [|apply internal_result_valid].
    destruct (ClaudeService.calculate_match _ _ _ _) as [e|d] eqn:E;
      [apply internal_result_valid|].
    apply delegate_record in E as [(q & Hq & ?) _].
    exists q. by rewrite lookup_insert_ne.
Qed.

(** The degraded record is reached: a posting whose experience level is
    [None] makes the internal algorithm raise on a résumé with experience. *)
Lemma internal_failure_example :
  error_record
    (calculate_match default_mapper Examples.delegate Datetime.fromisoformat
       Examples.clock Examples.candidate Examples.unlevelled_job false).
Proof. split; [reflexivity | eexists; reflexivity]. Qed.

(** C2, as stated, fails on the delegate's path: the repository's delegate
    normalises [score_overall] only, so a breakdown value of 150 in its
    answer reaches the caller; and the record of an injected delegate is not
    checked at all, so one without [score_overall] reaches the caller too. *)
Lemma calculate_match_details_counterexample :
  calculate_match default_mapper Examples.delegate Datetime.fromisoformat Examples.clock
    Examples.candidate Examples.backend_job true
  = <["created_at" := VStr Examples.clock]> Examples.delegate_answer
  ∧ ¬ details_in_range
        (calculate_match default_mapper Examples.delegate Datetime.fromisoformat
           Examples.clock Examples.candidate Examples.backend_job true)
  ∧ ¬ overall_in_range
        (calculate_match default_mapper Examples.stand_in Datetime.fromisoformat
           Examples.clock Examples.candidate Examples.backend_job true).
Proof.
  assert (E : calculate_match default_mapper Examples.delegate Datetime.fromisoformat
                Examples.clock Examples.candidate Examples.backend_job true
              = <["created_at" := VStr Examples.clock]> Examples.delegate_answer).
  { vm_compute. reflexivity. }
  split; [exact E|]. split.
  - rewrite E. intros H.
    destruct (H (VDict (<["technical_skills" := VNum (Fin 150)]> ∅)))
      as (d & Hd & Hrange); [reflexivity|].
    injection Hd as <-.
    destruct (Hrange "technical_skills" (VNum (Fin 150))) as (q & Hq & _ & Hle).
    { by rewrite lookup_insert_eq. }
    injection Hq as <-. revert Hle. by unfold Qle.
  - intros (q & Hq & _). discriminate Hq.
Qed.

End DelegationFacts.

(** ** The job analyser's batch *)

Module JobAnalyzerFacts.

Import JobAnalyzer Spec.

Section BatchFacts.
  Variable analyze : gmap string pyval → bool → exn + gmap string pyval.

Lemma batch_fold (use_claude : bool) (job_list acc : list (gmap string pyval)) :
    fold_left (batch_step analyze use_claude) job_list acc
    = acc ++ (batch_outcome analyze use_claude <$> job_list).
  Proof.
    revert acc. induction job_list as [|job_data job_list IH]; intros acc; simpl.
    - by rewrite app_nil_r.
    - rewrite IH. unfold batch_step, batch_outcome.
      destruct (analyze job_data use_claude); by rewrite <- app_assoc.
  Qed.

  (** C9. [analyze_job_batch] returns one result per posting, in the order
      of the input: the analysis of the posting, or, when the analysis of
      that posting raises, the posting with the error attached; the
      postings after it are processed all the same. *)
Theorem analyze_job_batch_isolation (job_list : list (gmap string pyval))
      (use_claude : bool) :
    let results := analyze_job_batch analyze job_list use_claude in
    length results = length job_list
    ∧ Forall2
        (λ job_data result,
           analyze job_data use_claude = inr result
           ∨ ∃ e, analyze job_data use_claude = inl e
                  ∧ result = <["error" := VStr (str_of_exn e)]> job_data
                  ∧ result !! "error" = Some (VStr (str_of_exn e)))
        job_list results.
  Proof.
    unfold analyze_job_batch. rewrite batch_fold. simpl. split.
    - by rewrite length_fmap.
    - induction job_list as [|job_data job_list IH]; simpl; constructor; [|done].
      unfold batch_outcome. destruct (analyze job_data use_claude) as [e|a]; [|by left].
      right. exists e. by rewrite lookup_insert_eq.
  Qed.
End BatchFacts.

(** The analyser's own [analyze] never raises on a posting: its failures
    are already turned into an [error] field. *)
Lemma analyze_returns claude_parse_job_post _extract_job_data _extract_skills now
    (job_data : gmap string pyval) (use_claude : bool) :
  ∃ analyzed_job,
    analyze claude_parse_job_post _extract_job_data _extract_skills now job_data use_claude
    = inr analyzed_job.
Proof.
  unfold analyze. destruct (negb _); [eauto|].
  destruct (if use_claude then claude_parse_job_post else None) as [parse|]; [|eauto].
  destruct (parse job_data); eauto.
Qed.

(** A posting without description comes back with an [error] field, and the
    posting after it is analysed. *)
Lemma analyze_job_batch_example :
  let analyze := analyze None (λ _, inr ∅) (λ _, inr (VList [VStr (py "SQL")]))
                   Examples.clock in
  ∃ first second,
    analyze_job_batch analyze [Examples.empty_posting; Examples.posting] false
    = [first; second]
    ∧ first !! "error" = Some (VStr (py "Descrição da vaga está vazia"))
    ∧ second !! "skills" = Some (VList [VStr (py "SQL")])
    ∧ second !! "error" = None.
Proof. do 2 eexists. split; [reflexivity|]. repeat split. Qed.

End JobAnalyzerFacts.

(** ** The skill canonicaliser *)

Module SkillMapperFacts.

Import SkillMapper Spec Aux.

(** *** Registration of aliases *)




Lemma normalize_skill_exact (self : SkillMapper.t) (s v : pystr) :
  s ≠ [] → ODict.get (lower (strip s)) (skill_map self) = Some v →
  normalize_skill self s = v.
Proof.
  intros Hs Hget. unfold normalize_skill, normalize_skill_in.
  destruct s; [done|]. by rewrite Hget.
Qed.

(** With any table, a canonical name that is registered as its own alias is
    returned as it is. *)
Lemma normalize_skill_self_alias (self : SkillMapper.t) (c : pystr) :
  ODict.get (lower (strip c)) (skill_map self) = Some c →
  normalize_skill self c = c.
Proof.
  intros H. destruct c as [|x c]; [done|]. by apply normalize_skill_exact.
Qed.




(** *** Idempotence *)
















End SkillMapperFacts.
